(** * HamedStack.BrowserFingerprint: the signal pipeline of [src/index.ts]

    A shallow embedding of the fingerprint pipeline: the signal providers,
    the buffer hash that compresses the rendered canvas image, the template
    literal that builds the canonical string and the SHA-256 digest that
    turns it into the fingerprint.

    Conventions of the embedding.
    - A JavaScript number that holds an integer is a [Z].  The arithmetic of
      the source is IEEE double arithmetic: the subtraction and the addition
      of the buffer hash round their exact result to the nearest double
      ([round53]).  [accumulator_bound] shows that no rounding happens on
      buffers of up to 2^21 bytes.
    - A JavaScript string is a [string], read as the UTF-8 byte sequence of
      its text, so that [TextEncoder.encode] is [list_byte_of_string] and
      concatenation is [append].
    - The ambient browser objects ([navigator], [window], [document], the
      canvas, WebGL and audio subsystems) are a record [Host] of the answers
      they give during one invocation.
    - A call that may throw, and a promise that may fulfil, reject or never
      settle, is an [outcome]. *)

From Stdlib Require Import ZArith List String Ascii Bool Lia.
From Stdlib Require Import Strings.Byte.
From Stdlib Require Import DecimalString HexadecimalString DecimalZ HexadecimalZ HexString.
From Stdlib Require Import DecimalPos HexadecimalPos.
Import ListNotations.

#[local] Open Scope string_scope.
#[local] Open Scope Z_scope.

(** ** Fragments of ECMAScript the source relies on *)

Module JS.

(** [ToInt32] on an integer-valued number: reduction modulo 2^32 into the
    signed range. *)
Definition ToInt32 (x : Z) : Z :=
  let m := x mod 2 ^ 32 in
  if 2 ^ 31 <=? m then m - 2 ^ 32 else m.

(** [x << k]: both operands go through the 32-bit conversions, the shift
    count is taken modulo 32 and the result is again a signed 32-bit
    integer. *)
Definition shl (x k : Z) : Z :=
  ToInt32 (Z.shiftl (ToInt32 x) (k mod 32)).

(** The double nearest to an integer: integers of magnitude below 2^53 are
    doubles; beyond, the significand keeps 53 bits and the rest is rounded
    to nearest, ties to the even significand.  (The largest finite double
    is out of reach of the arithmetic of this program.) *)
Definition round53 (x : Z) : Z :=
  let a := Z.abs x in
  if a <? 2 ^ 53 then x
  else
    let e := Z.log2 a - 52 in
    let q := Z.shiftr a e in
    let r := a - Z.shiftl q e in
    let half := 2 ^ (e - 1) in
    let q' := if ((half <? r) || ((r =? half) && Z.odd q))%bool
              then q + 1 else q in
    Z.sgn x * Z.shiftl q' e.

(** [x - y] and [x + y] on integer-valued numbers. *)
Definition Number_subtract (x y : Z) : Z := round53 (x - y).

Definition Number_add (x y : Z) : Z := round53 (x + y).

(** [Number.prototype.toString()] on an integer (of magnitude below 10^21,
    where the exponent notation starts): decimal digits, with a minus sign
    for negative numbers. *)
Definition Number_toString (n : Z) : string :=
  DecimalString.NilZero.string_of_int (Z.to_int n).

(** [Number.prototype.toString(16)] on an integer: lowercase hexadecimal
    digits of the magnitude, with a minus sign for negative numbers.  The
    digits are those of the exact value; the language fixes them for
    magnitudes below 2^53. *)
Definition Number_toString16 (n : Z) : string :=
  HexadecimalString.NilZero.string_of_int (Z.to_hex_int n).

(** [Array.prototype.join(sep)] on an array of strings. *)
Fixpoint join (sep : string) (xs : list string) : string :=
  match xs with
  | [] => ""
  | [x] => x
  | x :: rest => x ++ sep ++ join sep rest
  end.

(** [[...new Set(xs)]]: the distinct elements in order of first
    occurrence.  [seen] holds the elements already inserted. *)
Fixpoint distinct_from (seen xs : list string) : list string :=
  match xs with
  | [] => []
  | x :: rest =>
      if existsb (String.eqb x) seen
      then distinct_from seen rest
      else x :: distinct_from (x :: seen) rest
  end.

Definition distinct (xs : list string) : list string := distinct_from [] xs.

(** [s || d] on a string: the empty string is the only falsy string. *)
Definition or_else (s d : string) : string :=
  match s with
  | EmptyString => d
  | _ => s
  end.

(** [v || d] where [v] is a string or [null]. *)
Definition nullable_or_else (v : option string) (d : string) : string :=
  match v with
  | None => d
  | Some s => or_else s d
  end.

(** The first [k] characters of [pad] repeated; [cur] is what is left of
    the current copy. *)
Fixpoint fill (k : nat) (pad cur : string) : string :=
  match k with
  | O => ""
  | S k' =>
      match cur with
      | String c rest => String c (fill k' pad rest)
      | EmptyString =>
          match pad with
          | String c rest => String c (fill k' pad rest)
          | EmptyString => ""
          end
      end
  end.

(** [String.prototype.padStart(n, pad)]. *)
Definition padStart (n : nat) (pad s : string) : string :=
  if (n <=? String.length s)%nat then s
  else fill (n - String.length s) pad pad ++ s.

Inductive error : Type :=
| TypeError.

(** How a call or a promise ends: a value, an exception (a rejection), or
    a promise that never settles. *)
Inductive outcome (A : Type) : Type :=
| Ok (a : A)
| Throw (e : error)
| Stall.

Arguments Ok {A} a.
Arguments Throw {A} e.
Arguments Stall {A}.

(** Sequencing inside an [async] function: [await] of a rejected promise
    throws, [await] of a promise that never settles never returns. *)
Definition bind {A B : Type} (m : outcome A) (k : A -> outcome B) : outcome B :=
  match m with
  | Ok a => k a
  | Throw e => Throw e
  | Stall => Stall
  end.

(** What a template literal can interpolate in this program: a string, or
    a promise object. *)
Inductive value : Type :=
| VString (s : string)
| VPromise (p : outcome string).

(** [ToString]: a promise is an ordinary object, rendered by
    [Object.prototype.toString]. *)
Definition ToString (v : value) : string :=
  match v with
  | VString s => s
  | VPromise _ => "[object Promise]"
  end.

End JS.

Import JS.

Notation "x <- m ;; k" := (bind m (fun x => k))
  (at level 61, m at next level, right associativity).

(** ** The buffer hash *)

(** [view.getUint8(i)]. *)
Definition getUint8 (b : byte) : Z := Z.of_N (Byte.to_N b).

(** One turn of the loop: [hash = (hash << 5) - hash + view.getUint8(i)].
    Only the shift is a 32-bit operation; the subtraction and then the
    addition are double arithmetic. *)
Definition hash_step (hash : Z) (b : byte) : Z :=
  Number_add (Number_subtract (shl hash 5) hash) (getUint8 b).

(** The value of [hash] when the loop ends. *)
Definition accumulator (buffer : list byte) : Z :=
  fold_left hash_step buffer 0.

(** The values [hash] takes: before the loop and after each byte. *)
Fixpoint accumulator_trace (hash : Z) (buffer : list byte) : list Z :=
  match buffer with
  | [] => [hash]
  | b :: rest => hash :: accumulator_trace (hash_step hash b) rest
  end.

Definition computeHashBuffer (buffer : list byte) : string :=
  Number_toString16 (accumulator buffer).

(** The hash as the specification words it: a signed 32-bit accumulator,
    [acc * 31 + b] wrapped at every byte. *)
Definition wrapped_step (acc : Z) (b : byte) : Z :=
  ToInt32 (acc * 31 + getUint8 b).

Definition wrapped_accumulator (buffer : list byte) : Z :=
  fold_left wrapped_step buffer 0.

Definition computeHashBuffer_wrapped (buffer : list byte) : string :=
  Number_toString16 (wrapped_accumulator buffer).

Definition int32 (x : Z) : Prop := - 2 ^ 31 <= x < 2 ^ 31.

(** ** The digest primitive of the host

    [crypto.subtle.digest('SHA-256', bytes)] is not code of the repository:
    it is the host's implementation of FIPS 180-4, modelled here on 32-bit
    words held in [Z]. *)

Module SHA256.

Definition add32 (x y : Z) : Z := (x + y) mod 2 ^ 32.

Definition rotr (n x : Z) : Z :=
  Z.lor (Z.shiftr x n) (Z.shiftl x (32 - n) mod 2 ^ 32).

Definition shr (n x : Z) : Z := Z.shiftr x n.

Definition not32 (x : Z) : Z := Z.lxor x (2 ^ 32 - 1).

Definition Ch (x y z : Z) : Z :=
  Z.lxor (Z.land x y) (Z.land (not32 x) z).

Definition Maj (x y z : Z) : Z :=
  Z.lxor (Z.lxor (Z.land x y) (Z.land x z)) (Z.land y z).

Definition bsig0 (x : Z) : Z := Z.lxor (Z.lxor (rotr 2 x) (rotr 13 x)) (rotr 22 x).
Definition bsig1 (x : Z) : Z := Z.lxor (Z.lxor (rotr 6 x) (rotr 11 x)) (rotr 25 x).
Definition ssig0 (x : Z) : Z := Z.lxor (Z.lxor (rotr 7 x) (rotr 18 x)) (shr 3 x).
Definition ssig1 (x : Z) : Z := Z.lxor (Z.lxor (rotr 17 x) (rotr 19 x)) (shr 10 x).

Definition word (hex : string) : Z := HexString.to_Z ("0x" ++ hex).

(** The round constants, eight to a line as the standard prints them. *)
Definition K : list Z :=
  map word
    ( "428a2f98" :: "71374491" :: "b5c0fbcf" :: "e9b5dba5"
   :: "3956c25b" :: "59f111f1" :: "923f82a4" :: "ab1c5ed5"
   :: "d807aa98" :: "12835b01" :: "243185be" :: "550c7dc3"
   :: "72be5d74" :: "80deb1fe" :: "9bdc06a7" :: "c19bf174"
   :: "e49b69c1" :: "efbe4786" :: "0fc19dc6" :: "240ca1cc"
   :: "2de92c6f" :: "4a7484aa" :: "5cb0a9dc" :: "76f988da"
   :: "983e5152" :: "a831c66d" :: "b00327c8" :: "bf597fc7"
   :: "c6e00bf3" :: "d5a79147" :: "06ca6351" :: "14292967"
   :: "27b70a85" :: "2e1b2138" :: "4d2c6dfc" :: "53380d13"
   :: "650a7354" :: "766a0abb" :: "81c2c92e" :: "92722c85"
   :: "a2bfe8a1" :: "a81a664b" :: "c24b8b70" :: "c76c51a3"
   :: "d192e819" :: "d6990624" :: "f40e3585" :: "106aa070"
   :: "19a4c116" :: "1e376c08" :: "2748774c" :: "34b0bcb5"
   :: "391c0cb3" :: "4ed8aa4a" :: "5b9cca4f" :: "682e6ff3"
   :: "748f82ee" :: "78a5636f" :: "84c87814" :: "8cc70208"
   :: "90befffa" :: "a4506ceb" :: "bef9a3f7" :: "c67178f2" :: nil ).

(** The eight working variables, and the chaining value between blocks. *)
Record state : Type := State
  { sa : Z; sb : Z; sc : Z; sd : Z; se : Z; sf : Z; sg : Z; sh : Z }.

Definition initial : state :=
  State (word "6a09e667") (word "bb67ae85") (word "3c6ef372") (word "a54ff53a")
        (word "510e527f") (word "9b05688c") (word "1f83d9ab") (word "5be0cd19").

(** Padding: the byte 0x80, zero bytes up to 56 modulo 64, then the length
    of the message in bits as a 64-bit big-endian integer. *)
Definition be_bytes (n : nat) (x : Z) : list Z :=
  map (fun i => Z.shiftr x (8 * Z.of_nat i) mod 256) (rev (seq 0 n)).

Definition pad (msg : list Z) : list Z :=
  let len := Z.of_nat (List.length msg) in
  let zeros := Z.to_nat ((55 - len) mod 64) in
  (msg ++ 128 :: repeat 0 zeros ++ be_bytes 8 (8 * len))%list.

(** Big-endian 32-bit words of a byte sequence. *)
Fixpoint be_words (bs : list Z) : list Z :=
  match bs with
  | b3 :: b2 :: b1 :: b0 :: rest =>
      (((b3 * 256 + b2) * 256 + b1) * 256 + b0) :: be_words rest
  | _ => []
  end.

(** The message schedule beyond the first sixteen words; [w] is the window
    of the last sixteen, oldest first. *)
Fixpoint extend (n : nat) (w : list Z) : list Z :=
  match n with
  | O => []
  | S n' =>
      let x := add32 (add32 (ssig1 (nth 14 w 0)) (nth 9 w 0))
                     (add32 (ssig0 (nth 1 w 0)) (nth 0 w 0)) in
      x :: extend n' (tl w ++ [x])%list
  end.

Definition schedule (block : list Z) : list Z :=
  let w := be_words block in (w ++ extend 48 w)%list.

Definition round (s : state) (kw : Z * Z) : state :=
  let t1 := add32 (add32 (add32 (sh s) (bsig1 (se s)))
                         (add32 (Ch (se s) (sf s) (sg s)) (fst kw))) (snd kw) in
  let t2 := add32 (bsig0 (sa s)) (Maj (sa s) (sb s) (sc s)) in
  State (add32 t1 t2) (sa s) (sb s) (sc s) (add32 (sd s) t1) (se s) (sf s) (sg s).

Definition compress (h : state) (block : list Z) : state :=
  let s := fold_left round (combine K (schedule block)) h in
  State (add32 (sa h) (sa s)) (add32 (sb h) (sb s))
        (add32 (sc h) (sc s)) (add32 (sd h) (sd s))
        (add32 (se h) (se s)) (add32 (sf h) (sf s))
        (add32 (sg h) (sg s)) (add32 (sh h) (sh s)).

Fixpoint blocks (n : nat) (bs : list Z) (h : state) : state :=
  match n with
  | O => h
  | S n' => blocks n' (skipn 64 bs) (compress h (firstn 64 bs))
  end.

Definition output (h : state) : list Z :=
  flat_map (be_bytes 4) [sa h; sb h; sc h; sd h; se h; sf h; sg h; sh h].

(** The digest of a byte sequence: thirty-two bytes. *)
Definition digest (msg : list byte) : list Z :=
  let padded := pad (map (fun b => Z.of_N (Byte.to_N b)) msg) in
  output (blocks (List.length padded / 64) padded initial).

End SHA256.

(** ** The digest function of the source *)

(** [new TextEncoder().encode(input)]. *)
Definition encode (input : string) : list byte := list_byte_of_string input.

(** [byte.toString(16).padStart(2, '0')]. *)
Definition hex_byte (b : Z) : string := padStart 2 "0" (Number_toString16 b).

(** [computeSHA256]: the promise of [crypto.subtle.digest] fulfils with the
    digest bytes, which are rendered two hexadecimal digits each and joined
    with the empty separator. *)
Definition computeSHA256 (input : string) : outcome string :=
  let utf8 := encode input in
  hashBuffer <- Ok (SHA256.digest utf8) ;;
  let hashArray := hashBuffer in
  let hashHex := join "" (map hex_byte hashArray) in
  Ok hashHex.

(** ** The host environment *)

Record Plugin : Type := { name : string }.

Record FontFace : Type := { family : string }.

(** [document.fonts]: what awaiting [ready] and enumerating [values()]
    gives. *)
Inductive FontFaceSet : Type :=
| FontsReady (values : list FontFace)
| FontsThrow (e : error)
| FontsNeverReady.

(** What [canvas.toBlob] hands to its callback once a 2-D context was
    drawn on: the encoded image, or [null]. *)
Inductive Blob : Type :=
| BlobBytes (png : list byte)
| BlobNull.

(** The [WEBGL_debug_renderer_info] parameters, each a string or [null]. *)
Record DebugInfo : Type :=
  { UNMASKED_RENDERER_WEBGL : option string;
    UNMASKED_VENDOR_WEBGL : option string }.

Record Host : Type :=
  { userAgent : string;
    screen_width : Z;
    screen_height : Z;
    timeZone : string;
    language : string;
    platform : string;
    (** [navigator.doNotTrack]: a string or [null]. *)
    doNotTrack : option string;
    (** [navigator.hardwareConcurrency]: a number, or [undefined] where the
        host does not expose it. *)
    hardwareConcurrency : option Z;
    cookieEnabled : bool;
    plugins : list Plugin;
    (** ['ontouchstart' in window]. *)
    ontouchstart : bool;
    maxTouchPoints : Z;
    (** [None] when ['fonts' in document] is false. *)
    fonts : option FontFaceSet;
    (** [None] when [getContext('2d')] returns [null]. *)
    context2d : option Blob;
    (** Outer [None]: [getContext('webgl')] returns [null]; inner [None]:
        [getExtension('WEBGL_debug_renderer_info')] returns [null]. *)
    webgl : option (option DebugInfo);
    (** The bytes [getByteFrequencyData] leaves in the array, or [None]
        when building the audio graph throws. *)
    audio : option (list byte) }.

(** ** The signal providers *)

Definition getUserAgent (h : Host) : string := userAgent h.

Definition getScreenResolution (h : Host) : string :=
  Number_toString (screen_width h) ++ "x" ++ Number_toString (screen_height h).

Definition getTimeZone (h : Host) : string := timeZone h.

Definition getLanguage (h : Host) : string := language h.

Definition getPlatform (h : Host) : string := platform h.

Definition getDoNotTrackStatus (h : Host) : string :=
  nullable_or_else (doNotTrack h) "N/A".

(** [navigator.hardwareConcurrency.toString() || 'N/A']: the method call
    comes first, and throws on [undefined]. *)
Definition getHardwareConcurrencyStatus (h : Host) : outcome string :=
  match hardwareConcurrency h with
  | None => Throw TypeError
  | Some n => Ok (or_else (Number_toString n) "N/A")
  end.

Definition getCookiesStatus (h : Host) : string :=
  if cookieEnabled h then "Cookies Enabled" else "Cookies Disabled".

Definition getPlugins (h : Host) : string :=
  let plugins := map (fun plugin => name plugin) (plugins h) in
  join ";" (distinct plugins).

Definition getTouchSupport (h : Host) : string :=
  if ontouchstart h || (0 <? maxTouchPoints h)
  then "Touch Supported"
  else "Touch Not Supported".

Definition getFonts (h : Host) : outcome string :=
  match fonts h with
  | Some (FontsReady values) =>
      let fontList := map (fun font => family font) values in
      let distinctFonts := distinct fontList in
      let fontListString := join ";" distinctFonts in
      Ok (or_else fontListString "N/A")
  | Some (FontsThrow _) => Ok "N/A"
  | Some FontsNeverReady => Stall
  | None => Ok "N/A"
  end.

Definition getWebGLFingerprint (h : Host) : outcome string :=
  match webgl h with
  | None => Ok "N/A"
  | Some None => Ok "N/A"
  | Some (Some debugInfo) =>
      let renderer := nullable_or_else (UNMASKED_RENDERER_WEBGL debugInfo) "N/A" in
      let vendor := nullable_or_else (UNMASKED_VENDOR_WEBGL debugInfo) "N/A" in
      Ok (renderer ++ vendor)
  end.

Definition getAudioFingerprint (h : Host) : outcome string :=
  match audio h with
  | Some fingerprintArray =>
      Ok (join "," (map (fun b => Number_toString (getUint8 b)) fingerprintArray))
  | None => Ok "N/A"
  end.

(** [getCanvasFingerprint]: the promise executor dereferences the context
    without a test, so a [null] context is a [TypeError] thrown inside the
    executor, which rejects the promise.  [resolve] is called only from the
    [toBlob] callback, after [blob!.arrayBuffer()]: on a [null] blob the
    callback throws before it and the promise never settles. *)
Definition getCanvasFingerprint (h : Host) : outcome string :=
  match context2d h with
  | None => Throw TypeError
  | Some (BlobBytes buffer) => Ok (computeHashBuffer buffer)
  | Some BlobNull => Stall
  end.

(** ** The orchestrator *)

(** The template literal of [getBrowserFingerprint]: fourteen
    interpolations, each converted with [ToString], and thirteen literal
    hyphens between them. *)
Definition template (userAgent screenResolution timeZone language platform
                     track hardwareConcurrency cookies touch plugins fonts
                     canvas webgl audio : value) : string :=
  ToString userAgent ++ "-" ++ ToString screenResolution ++ "-" ++
  ToString timeZone ++ "-" ++ ToString language ++ "-" ++
  ToString platform ++ "-" ++ ToString track ++ "-" ++
  ToString hardwareConcurrency ++ "-" ++ ToString cookies ++ "-" ++
  ToString touch ++ "-" ++ ToString plugins ++ "-" ++ ToString fonts ++ "-" ++
  ToString canvas ++ "-" ++ ToString webgl ++ "-" ++ ToString audio.

(** The body of [getBrowserFingerprint] down to the binding of [raw].  The
    synchronous providers run first, in the order of the source; three of
    the four asynchronous providers are awaited; [getAudioFingerprint] is
    called without [await], so [audio] is bound to the promise itself. *)
Definition canonical (h : Host) : outcome string :=
  let userAgent := getUserAgent h in
  let screenResolution := getScreenResolution h in
  let timeZone := getTimeZone h in
  let language := getLanguage h in
  let platform := getPlatform h in
  let track := getDoNotTrackStatus h in
  hardwareConcurrency <- getHardwareConcurrencyStatus h ;;
  let cookies := getCookiesStatus h in
  let touch := getTouchSupport h in
  let plugins := getPlugins h in
  fonts <- getFonts h ;;
  canvas <- getCanvasFingerprint h ;;
  webgl <- getWebGLFingerprint h ;;
  let audio := getAudioFingerprint h in
  Ok (template (VString userAgent) (VString screenResolution)
        (VString timeZone) (VString language) (VString platform)
        (VString track) (VString hardwareConcurrency) (VString cookies)
        (VString touch) (VString plugins) (VString fonts) (VString canvas)
        (VString webgl) (VPromise audio)).

Definition getBrowserFingerprint (h : Host) : outcome string :=
  raw <- canonical h ;;
  uniqueId <- computeSHA256 raw ;;
  Ok uniqueId.

(** ** Environments used in the statements *)

(** Two hosts that answer alike to everything the pipeline reads, except
    possibly for the bytes the audio analyser captures (which depend on the
    instant of the capture).  Equal hosts are in particular related. *)
Definition same_environment (h1 h2 : Host) : Prop :=
  userAgent h1 = userAgent h2 /\
  screen_width h1 = screen_width h2 /\
  screen_height h1 = screen_height h2 /\
  timeZone h1 = timeZone h2 /\
  language h1 = language h2 /\
  platform h1 = platform h2 /\
  doNotTrack h1 = doNotTrack h2 /\
  hardwareConcurrency h1 = hardwareConcurrency h2 /\
  cookieEnabled h1 = cookieEnabled h2 /\
  plugins h1 = plugins h2 /\
  ontouchstart h1 = ontouchstart h2 /\
  maxTouchPoints h1 = maxTouchPoints h2 /\
  fonts h1 = fonts h2 /\
  context2d h1 = context2d h2 /\
  webgl h1 = webgl h2.

(** The first ten bytes of every PNG stream: the signature and the first
    two bytes of the length of the header chunk. *)
Definition png_start : list byte :=
  [x89; x50; x4e; x47; x0d; x0a; x1a; x0a; x00; x00].

(** A desktop browser in which every subsystem works. *)
Definition desktop : Host :=
  {| userAgent := "Mozilla/5.0";
     screen_width := 1920;
     screen_height := 1080;
     timeZone := "Europe/Paris";
     language := "en-US";
     platform := "Linux x86_64";
     doNotTrack := None;
     hardwareConcurrency := Some 8;
     cookieEnabled := true;
     plugins := [ {| name := "PDF Viewer" |}; {| name := "PDF Viewer" |} ];
     ontouchstart := false;
     maxTouchPoints := 0;
     fonts := Some (FontsReady [ {| family := "Arial" |} ]);
     context2d := Some (BlobBytes png_start);
     webgl := Some (Some {| UNMASKED_RENDERER_WEBGL := Some "Mesa";
                            UNMASKED_VENDOR_WEBGL := None |});
     audio := Some [x00; x07] |}.

(** A host in which every asynchronous provider fails: no font subsystem,
    no 2-D context, no WebGL context, no audio subsystem. *)
Definition degraded : Host :=
  {| userAgent := "Mozilla/5.0";
     screen_width := 1920;
     screen_height := 1080;
     timeZone := "Europe/Paris";
     language := "en-US";
     platform := "Linux x86_64";
     doNotTrack := None;
     hardwareConcurrency := Some 8;
     cookieEnabled := true;
     plugins := [];
     ontouchstart := false;
     maxTouchPoints := 0;
     fonts := None;
     context2d := None;
     webgl := None;
     audio := None |}.

(** Hosts that differ from [h] in one answer. *)
Definition set_hardwareConcurrency (n : option Z) (h : Host) : Host :=
  {| userAgent := userAgent h;
     screen_width := screen_width h;
     screen_height := screen_height h;
     timeZone := timeZone h;
     language := language h;
     platform := platform h;
     doNotTrack := doNotTrack h;
     hardwareConcurrency := n;
     cookieEnabled := cookieEnabled h;
     plugins := plugins h;
     ontouchstart := ontouchstart h;
     maxTouchPoints := maxTouchPoints h;
     fonts := fonts h;
     context2d := context2d h;
     webgl := webgl h;
     audio := audio h |}.

Definition set_fonts (f : option FontFaceSet) (h : Host) : Host :=
  {| userAgent := userAgent h;
     screen_width := screen_width h;
     screen_height := screen_height h;
     timeZone := timeZone h;
     language := language h;
     platform := platform h;
     doNotTrack := doNotTrack h;
     hardwareConcurrency := hardwareConcurrency h;
     cookieEnabled := cookieEnabled h;
     plugins := plugins h;
     ontouchstart := ontouchstart h;
     maxTouchPoints := maxTouchPoints h;
     fonts := f;
     context2d := context2d h;
     webgl := webgl h;
     audio := audio h |}.

Definition set_context2d (c : option Blob) (h : Host) : Host :=
  {| userAgent := userAgent h;
     screen_width := screen_width h;
     screen_height := screen_height h;
     timeZone := timeZone h;
     language := language h;
     platform := platform h;
     doNotTrack := doNotTrack h;
     hardwareConcurrency := hardwareConcurrency h;
     cookieEnabled := cookieEnabled h;
     plugins := plugins h;
     ontouchstart := ontouchstart h;
     maxTouchPoints := maxTouchPoints h;
     fonts := fonts h;
     context2d := c;
     webgl := webgl h;
     audio := audio h |}.

Definition set_audio (a : option (list byte)) (h : Host) : Host :=
  {| userAgent := userAgent h;
     screen_width := screen_width h;
     screen_height := screen_height h;
     timeZone := timeZone h;
     language := language h;
     platform := platform h;
     doNotTrack := doNotTrack h;
     hardwareConcurrency := hardwareConcurrency h;
     cookieEnabled := cookieEnabled h;
     plugins := plugins h;
     ontouchstart := ontouchstart h;
     maxTouchPoints := maxTouchPoints h;
     fonts := fonts h;
     context2d := context2d h;
     webgl := webgl h;
     audio := a |}.

(** The desktop browser a moment later: only the audio capture differs. *)
Definition desktop_later : Host := set_audio (Some [x03; x00]) desktop.

(** The characters of a lowercase hexadecimal rendering. *)
Definition is_lower_hex (c : ascii) : bool :=
  let n := N_of_ascii c in
  ((48 <=? n) && (n <=? 57) || (97 <=? n) && (n <=? 102))%N.

Definition lower_hex (s : string) : Prop :=
  forallb is_lower_hex (list_ascii_of_string s) = true.

(** ** More environments *)

Definition set_timeZone (tz : string) (h : Host) : Host :=
  {| userAgent := userAgent h;
     screen_width := screen_width h;
     screen_height := screen_height h;
     timeZone := tz;
     language := language h;
     platform := platform h;
     doNotTrack := doNotTrack h;
     hardwareConcurrency := hardwareConcurrency h;
     cookieEnabled := cookieEnabled h;
     plugins := plugins h;
     ontouchstart := ontouchstart h;
     maxTouchPoints := maxTouchPoints h;
     fonts := fonts h;
     context2d := context2d h;
     webgl := webgl h;
     audio := audio h |}.

Definition set_language (l : string) (h : Host) : Host :=
  {| userAgent := userAgent h;
     screen_width := screen_width h;
     screen_height := screen_height h;
     timeZone := timeZone h;
     language := l;
     platform := platform h;
     doNotTrack := doNotTrack h;
     hardwareConcurrency := hardwareConcurrency h;
     cookieEnabled := cookieEnabled h;
     plugins := plugins h;
     ontouchstart := ontouchstart h;
     maxTouchPoints := maxTouchPoints h;
     fonts := fonts h;
     context2d := context2d h;
     webgl := webgl h;
     audio := audio h |}.

Definition set_plugins (ps : list Plugin) (h : Host) : Host :=
  {| userAgent := userAgent h;
     screen_width := screen_width h;
     screen_height := screen_height h;
     timeZone := timeZone h;
     language := language h;
     platform := platform h;
     doNotTrack := doNotTrack h;
     hardwareConcurrency := hardwareConcurrency h;
     cookieEnabled := cookieEnabled h;
     plugins := ps;
     ontouchstart := ontouchstart h;
     maxTouchPoints := maxTouchPoints h;
     fonts := fonts h;
     context2d := context2d h;
     webgl := webgl h;
     audio := audio h |}.

Definition set_screen_width (w : Z) (h : Host) : Host :=
  {| userAgent := userAgent h;
     screen_width := w;
     screen_height := screen_height h;
     timeZone := timeZone h;
     language := language h;
     platform := platform h;
     doNotTrack := doNotTrack h;
     hardwareConcurrency := hardwareConcurrency h;
     cookieEnabled := cookieEnabled h;
     plugins := plugins h;
     ontouchstart := ontouchstart h;
     maxTouchPoints := maxTouchPoints h;
     fonts := fonts h;
     context2d := context2d h;
     webgl := webgl h;
     audio := audio h |}.

Definition set_webgl (gl : option (option DebugInfo)) (h : Host) : Host :=
  {| userAgent := userAgent h;
     screen_width := screen_width h;
     screen_height := screen_height h;
     timeZone := timeZone h;
     language := language h;
     platform := platform h;
     doNotTrack := doNotTrack h;
     hardwareConcurrency := hardwareConcurrency h;
     cookieEnabled := cookieEnabled h;
     plugins := plugins h;
     ontouchstart := ontouchstart h;
     maxTouchPoints := maxTouchPoints h;
     fonts := fonts h;
     context2d := context2d h;
     webgl := gl;
     audio := audio h |}.

(** The base-31 polynomial of the bytes, with no 32-bit conversion
    anywhere: what the loop of [computeHashBuffer] would compute in exact
    integer arithmetic. *)
Definition horner31 (buffer : list byte) : Z :=
  fold_left (fun acc b => acc * 31 + getUint8 b) buffer 0.

(** The characters of a decimal rendering: digits and the sign. *)
Definition is_decimal_char (c : ascii) : bool :=
  let n := N_of_ascii c in
  ((48 <=? n) && (n <=? 57) || (n =? 45))%N.

(** * Properties *)

(** ** 32-bit conversion *)

Lemma ToInt32_range (x : Z) : int32 (ToInt32 x).
Proof.
  unfold int32, ToInt32.
  pose proof (Z.mod_pos_bound x (2 ^ 32) ltac:(lia)) as Hm.
  cbv zeta. destruct (Z.leb_spec (2 ^ 31) (x mod 2 ^ 32)); lia.
Qed.

Lemma ToInt32_id (x : Z) : int32 x -> ToInt32 x = x.
Proof.
  unfold int32, ToInt32. intros Hx. cbv zeta.
  destruct (Z_lt_le_dec x 0) as [Hneg | Hpos].
  - replace (x mod 2 ^ 32) with (x + 2 ^ 32).
    + destruct (Z.leb_spec (2 ^ 31) (x + 2 ^ 32)); lia.
    + apply Z.mod_unique with (q := -1); lia.
  - rewrite Z.mod_small by lia.
    destruct (Z.leb_spec (2 ^ 31) x); lia.
Qed.

(** Adding a multiple of 2^32 does not change the conversion. *)
Lemma ToInt32_shift (x k : Z) : ToInt32 (x + k * 2 ^ 32) = ToInt32 x.
Proof.
  unfold ToInt32. now rewrite Z_mod_plus_full.
Qed.

Lemma ToInt32_decompose (x : Z) : exists k, ToInt32 x = x + k * 2 ^ 32.
Proof.
  unfold ToInt32. cbv zeta.
  pose proof (Z.div_mod x (2 ^ 32) ltac:(lia)) as Hd.
  destruct (Z.leb_spec (2 ^ 31) (x mod 2 ^ 32)).
  - exists (- (x / 2 ^ 32) - 1). lia.
  - exists (- (x / 2 ^ 32)). lia.
Qed.

Lemma ToInt32_congruent (x y k : Z) :
  x = y + k * 2 ^ 32 -> ToInt32 x = ToInt32 y.
Proof.
  intros ->. apply ToInt32_shift.
Qed.

Lemma shl_5 (x : Z) : shl x 5 = ToInt32 (ToInt32 x * 32).
Proof.
  unfold shl. change (5 mod 32) with 5.
  now rewrite Z.shiftl_mul_pow2 by lia.
Qed.

Lemma getUint8_range (b : byte) : 0 <= getUint8 b <= 255.
Proof.
  unfold getUint8. pose proof (Byte.to_N_bounded b). lia.
Qed.

(** ** The buffer hash *)

Lemma round53_exact (x : Z) : Z.abs x < 2 ^ 53 -> round53 x = x.
Proof.
  intros Hx. unfold round53. cbv zeta.
  destruct (Z.ltb_spec (Z.abs x) (2 ^ 53)); [reflexivity | lia].
Qed.

(** Rounding beyond 2^53: to the nearest double, and to the even
    significand when two are as near. *)
Example round53_nearest_even :
  map round53
    [2 ^ 53 + 1; 2 ^ 53 + 2; 2 ^ 53 + 3; - (2 ^ 53 + 1); 2 ^ 54 + 2;
     2 ^ 54 + 3; 2 ^ 54 + 6; 2 ^ 60 + 2 ^ 7 + 1]
  = [2 ^ 53; 2 ^ 53 + 2; 2 ^ 53 + 4; - 2 ^ 53; 2 ^ 54;
     2 ^ 54 + 4; 2 ^ 54 + 8; 2 ^ 60 + 2 ^ 8].
Proof. vm_compute. reflexivity. Qed.

(** Twelve turns of the loop from an accumulator above 2^54, where the
    subtraction rounds. *)
Example hash_step_rounds :
  fold_left hash_step
    [xc8; x0d; xff; x00; x4d; x80; xff; xff; x01; x02; x03; x04]
    18014398521827664
  = 18014395439166988.
Proof. vm_compute. reflexivity. Qed.

Lemma shl_range (x k : Z) : int32 (shl x k).
Proof. unfold shl. apply ToInt32_range. Qed.

(** While the accumulator is far enough below 2^53, one turn of the loop
    rounds nothing. *)
Lemma hash_step_exact (hash : Z) (b : byte) :
  Z.abs hash + (2 ^ 31 + 255) < 2 ^ 53 ->
  hash_step hash b = shl hash 5 - hash + getUint8 b.
Proof.
  intros Hh. unfold hash_step, Number_add, Number_subtract.
  pose proof (shl_range hash 5) as Hs. unfold int32 in Hs.
  pose proof (getUint8_range b) as Hb.
  rewrite (round53_exact (shl hash 5 - hash)) by lia.
  apply round53_exact. lia.
Qed.

(** Such a turn agrees, modulo 2^32, with the wrapped turn. *)
Lemma hash_step_wrapped (hash : Z) (b : byte) :
  Z.abs hash + (2 ^ 31 + 255) < 2 ^ 53 ->
  ToInt32 (hash_step hash b) = wrapped_step (ToInt32 hash) b.
Proof.
  intros Hh. rewrite hash_step_exact by exact Hh.
  unfold wrapped_step. rewrite shl_5.
  destruct (ToInt32_decompose hash) as [k1 Hk1].
  destruct (ToInt32_decompose (ToInt32 hash * 32)) as [k2 Hk2].
  rewrite Hk2, Hk1.
  apply ToInt32_congruent with (k := k1 + k2). lia.
Qed.

Lemma hash_step_growth (hash : Z) (b : byte) :
  Z.abs hash + (2 ^ 31 + 255) < 2 ^ 53 ->
  Z.abs (hash_step hash b) <= Z.abs hash + (2 ^ 31 + 255).
Proof.
  intros Hh. rewrite hash_step_exact by exact Hh.
  pose proof (shl_range hash 5) as Hs. unfold int32 in Hs.
  pose proof (getUint8_range b) as Hb. lia.
Qed.

Lemma fold_hash_step_bounded (buffer : list byte) :
  forall hash,
    Z.abs hash + Z.of_nat (List.length buffer) * (2 ^ 31 + 255) < 2 ^ 53 ->
    ToInt32 (fold_left hash_step buffer hash)
    = fold_left wrapped_step buffer (ToInt32 hash) /\
    Z.abs (fold_left hash_step buffer hash)
    <= Z.abs hash + Z.of_nat (List.length buffer) * (2 ^ 31 + 255).
Proof.
  induction buffer as [| b rest IH]; intros hash Hroom.
  - simpl. split; [reflexivity | lia].
  - cbn [fold_left]. cbn [List.length] in *.
    rewrite Nat2Z.inj_succ in *.
    assert (Hstep : Z.abs hash + (2 ^ 31 + 255) < 2 ^ 53) by lia.
    pose proof (hash_step_growth hash b Hstep) as Hgrow.
    destruct (IH (hash_step hash b)) as [Hcong Hbound]; [lia |].
    rewrite Hcong, hash_step_wrapped by exact Hstep.
    split; [reflexivity | lia].
Qed.

Lemma bytes_room (n : Z) :
  0 <= n <= 2 ^ 21 -> n * (2 ^ 31 + 255) < 2 ^ 53.
Proof. intros Hn. change (2 ^ 53) with 9007199254740992. lia. Qed.

Lemma accumulator_congruent (buffer : list byte) :
  Z.of_nat (List.length buffer) <= 2 ^ 21 ->
  ToInt32 (accumulator buffer) = wrapped_accumulator buffer.
Proof.
  intros Hlen. unfold accumulator, wrapped_accumulator.
  apply (fold_hash_step_bounded buffer 0).
  pose proof (bytes_room (Z.of_nat (List.length buffer))). simpl Z.abs. lia.
Qed.

Lemma accumulator_growth (buffer : list byte) :
  Z.of_nat (List.length buffer) <= 2 ^ 21 ->
  Z.abs (accumulator buffer)
  <= Z.of_nat (List.length buffer) * (2 ^ 31 + 255).
Proof.
  intros Hlen. unfold accumulator.
  pose proof (bytes_room (Z.of_nat (List.length buffer))) as Hroom.
  destruct (fold_hash_step_bounded buffer 0) as [_ Hb]; simpl Z.abs in *; lia.
Qed.

(** On buffers of up to 2^21 bytes the accumulator stays below 2^53: every
    subtraction and addition of the loop is exact. *)
Lemma accumulator_bound (buffer : list byte) :
  Z.of_nat (List.length buffer) <= 2 ^ 21 ->
  Z.abs (accumulator buffer) < 2 ^ 53.
Proof.
  intros Hlen.
  pose proof (accumulator_growth buffer Hlen) as Hg.
  pose proof (bytes_room (Z.of_nat (List.length buffer))). lia.
Qed.

Lemma accumulator_trace_last (buffer : list byte) :
  forall hash,
    last (accumulator_trace hash buffer) 0 = fold_left hash_step buffer hash.
Proof.
  induction buffer as [| b rest IH]; intros hash.
  - reflexivity.
  - cbn [accumulator_trace fold_left]. rewrite <- IH.
    destruct rest; reflexivity.
Qed.

(** On buffers of up to 2^21 bytes the accumulator of [computeHashBuffer]
    is congruent modulo 2^32 to the signed 32-bit accumulator
    [acc * 31 + b] of the wrapped hash, without being wrapped itself: after
    n bytes its magnitude is at most n * (2^31 + 255).  The token is the
    token of the wrapped hash whenever the accumulator ends in the signed
    32-bit range. *)
Theorem computeHashBuffer_congruent (buffer : list byte) :
  Z.of_nat (List.length buffer) <= 2 ^ 21 ->
  ToInt32 (accumulator buffer) = wrapped_accumulator buffer /\
  Z.abs (accumulator buffer)
    <= Z.of_nat (List.length buffer) * (2 ^ 31 + 255) /\
  (int32 (accumulator buffer) ->
   computeHashBuffer buffer = computeHashBuffer_wrapped buffer).
Proof.
  intros Hlen.
  split; [now apply accumulator_congruent |].
  split; [now apply accumulator_growth |].
  intros Hin. unfold computeHashBuffer, computeHashBuffer_wrapped.
  rewrite <- accumulator_congruent by exact Hlen. now rewrite ToInt32_id.
Qed.

Lemma computeHashBuffer_congruent_witness :
  int32 (accumulator [x41; x42; x43]) /\
  computeHashBuffer [x41; x42; x43] = computeHashBuffer_wrapped [x41; x42; x43].
Proof.
  assert (Hlen : Z.of_nat (List.length [x41; x42; x43]) <= 2 ^ 21)
    by (vm_compute; discriminate).
  assert (Hin : int32 (accumulator [x41; x42; x43])).
  { unfold int32. vm_compute. split; [discriminate | reflexivity]. }
  split; [exact Hin |].
  exact (proj2 (proj2 (computeHashBuffer_congruent [x41; x42; x43] Hlen)) Hin).
Defined.

(** C4.  The accumulator of the code is not a signed 32-bit value: the
    loop never truncates it.  On the first ten bytes of a PNG stream it
    ends on -2249312467, outside the signed 32-bit range, and the token is
    "-8611c8d3", where the 32-bit accumulator of the wrapped hash ends on
    2045654829 and renders as "79ee372d". *)
Theorem computeHashBuffer_not_wrapped :
  accumulator png_start = -2249312467 /\
  ~ int32 (accumulator png_start) /\
  wrapped_accumulator png_start = 2045654829 /\
  computeHashBuffer png_start = "-8611c8d3" /\
  computeHashBuffer_wrapped png_start = "79ee372d" /\
  computeHashBuffer png_start <> computeHashBuffer_wrapped png_start.
Proof.
  repeat split; try (vm_compute; reflexivity).
  - unfold int32. vm_compute. intros [H _]. now apply H.
  - vm_compute. discriminate.
Qed.

(** C8.  On the bytes 65, 66, 67 the accumulator takes the values 0, 65,
    2081, 64578 and the token is "fc42"; on the empty buffer the token is
    "0". *)
Theorem computeHashBuffer_vectors :
  accumulator_trace 0 [x41; x42; x43] = [0; 65; 2081; 64578] /\
  accumulator [x41; x42; x43] = 64578 /\
  computeHashBuffer [x41; x42; x43] = "fc42" /\
  computeHashBuffer [] = "0".
Proof.
  repeat split; vm_compute; reflexivity.
Qed.

(** ** Strings *)

Lemma append_empty_r (s : string) : s ++ "" = s.
Proof.
  induction s as [| c s IH]; simpl; [reflexivity | now rewrite IH].
Qed.

Lemma append_associative (s1 s2 s3 : string) :
  (s1 ++ s2) ++ s3 = s1 ++ (s2 ++ s3).
Proof.
  induction s1 as [| c s1 IH]; simpl; [reflexivity | now rewrite IH].
Qed.

Lemma length_append (s1 s2 : string) :
  String.length (s1 ++ s2) = (String.length s1 + String.length s2)%nat.
Proof.
  induction s1 as [| c s1 IH]; simpl; [reflexivity | now rewrite IH].
Qed.

Lemma lower_hex_append (s1 s2 : string) :
  lower_hex s1 -> lower_hex s2 -> lower_hex (s1 ++ s2).
Proof.
  unfold lower_hex. intros H1 H2.
  induction s1 as [| c s1 IH]; simpl in *; [exact H2 |].
  apply andb_true_iff in H1 as [Hc H1].
  rewrite Hc. simpl. now apply IH.
Qed.

(** Joining with the empty separator is plain concatenation. *)
Lemma join_empty_cons (x : string) (xs : list string) :
  join "" (x :: xs) = x ++ join "" xs.
Proof.
  destruct xs as [| y ys]; simpl; [now rewrite append_empty_r | reflexivity].
Qed.

(** A last element is appended after one separator. *)
Lemma join_snoc (sep x y : string) (xs : list string) :
  join sep ((x :: xs) ++ [y])%list = join sep (x :: xs) ++ sep ++ y.
Proof.
  revert x. induction xs as [| z zs IH]; intros x.
  - reflexivity.
  - change (join sep ((x :: z :: zs) ++ [y])%list)
      with (x ++ sep ++ join sep ((z :: zs) ++ [y])%list).
    rewrite IH.
    change (join sep (x :: z :: zs)) with (x ++ sep ++ join sep (z :: zs)).
    now rewrite !append_associative.
Qed.

(** A number never renders as the empty string, so [n.toString() || d] is
    [n.toString()]. *)
Lemma Number_toString_or_else (n : Z) (d : string) :
  or_else (Number_toString n) d = Number_toString n.
Proof.
  unfold Number_toString, DecimalString.NilZero.string_of_int.
  destruct (Z.to_int n) as [u | u]; [destruct u |]; reflexivity.
Qed.

(** The first character of a rendered number is a digit or the sign. *)
Lemma Number_toString_not_sentinel (n : Z) : Number_toString n <> "N/A".
Proof.
  unfold Number_toString, DecimalString.NilZero.string_of_int.
  destruct (Z.to_int n) as [u | u]; [destruct u |]; discriminate.
Qed.

(** ** The digest function *)

Lemma be_bytes_length (n : nat) (x : Z) : List.length (SHA256.be_bytes n x) = n.
Proof.
  unfold SHA256.be_bytes.
  now rewrite length_map, length_rev, length_seq.
Qed.

Lemma be_bytes_range (n : nat) (x : Z) :
  Forall (fun b => 0 <= b < 256) (SHA256.be_bytes n x).
Proof.
  unfold SHA256.be_bytes. apply Forall_forall. intros b Hb.
  apply in_map_iff in Hb as [i [<- _]].
  apply Z.mod_pos_bound. lia.
Qed.

Lemma output_length (h : SHA256.state) : List.length (SHA256.output h) = 32%nat.
Proof.
  unfold SHA256.output. cbn [flat_map].
  now rewrite !length_app, !be_bytes_length.
Qed.

Lemma output_range (h : SHA256.state) :
  Forall (fun b => 0 <= b < 256) (SHA256.output h).
Proof.
  unfold SHA256.output. cbn [flat_map].
  repeat (apply Forall_app; split; [apply be_bytes_range |]).
  constructor.
Qed.

(** The digest is thirty-two bytes, whatever the message. *)
Lemma digest_length (msg : list byte) : List.length (SHA256.digest msg) = 32%nat.
Proof.
  unfold SHA256.digest. apply output_length.
Qed.

Lemma digest_range (msg : list byte) :
  Forall (fun b => 0 <= b < 256) (SHA256.digest msg).
Proof.
  unfold SHA256.digest. apply output_range.
Qed.

(** A byte renders as exactly two lowercase hexadecimal digits: checked on
    each of the 256 bytes. *)
Lemma hex_byte_two_digits (b : Z) :
  0 <= b < 256 ->
  String.length (hex_byte b) = 2%nat /\ lower_hex (hex_byte b).
Proof.
  intros Hb.
  assert (Hall : forallb
            (fun n => let s := hex_byte (Z.of_nat n) in
                      Nat.eqb (String.length s) 2
                      && forallb is_lower_hex (list_ascii_of_string s))
            (seq 0 256) = true) by (vm_compute; reflexivity).
  rewrite forallb_forall in Hall.
  specialize (Hall (Z.to_nat b)).
  rewrite Z2Nat.id in Hall by lia.
  assert (Hin : In (Z.to_nat b) (seq 0 256)) by (apply in_seq; lia).
  apply Hall in Hin. cbv zeta in Hin.
  apply andb_true_iff in Hin as [Hlen Hhex].
  split; [now apply Nat.eqb_eq | exact Hhex].
Qed.

Lemma join_hex_bytes (bs : list Z) :
  Forall (fun b => 0 <= b < 256) bs ->
  String.length (join "" (map hex_byte bs)) = (2 * List.length bs)%nat /\
  lower_hex (join "" (map hex_byte bs)).
Proof.
  induction 1 as [| b bs Hb _ [IHlen IHhex]].
  - split; reflexivity.
  - cbn [map]. rewrite join_empty_cons.
    destruct (hex_byte_two_digits b Hb) as [Hlen Hhex].
    split.
    + rewrite length_append, Hlen, IHlen. cbn [List.length]. lia.
    + now apply lower_hex_append.
Qed.

Lemma computeSHA256_fulfils (input : string) :
  exists hashHex,
    computeSHA256 input = Ok hashHex /\
    hashHex = join "" (map hex_byte (SHA256.digest (encode input))) /\
    String.length hashHex = 64%nat /\
    lower_hex hashHex.
Proof.
  exists (join "" (map hex_byte (SHA256.digest (encode input)))).
  split; [reflexivity |]. split; [reflexivity |].
  destruct (join_hex_bytes _ (digest_range (encode input))) as [Hlen Hhex].
  split; [| exact Hhex].
  rewrite Hlen, digest_length. reflexivity.
Qed.

(** C6.  For every input string [computeSHA256] fulfils with the SHA-256
    digest of the UTF-8 bytes of the input, rendered as a string of exactly
    64 lowercase hexadecimal characters.  On the published vectors of the
    standard (the empty message, "abc", the 448-bit and the 896-bit
    message) and on the two-byte UTF-8 encoding of U+00E9 it is the
    published digest. *)
Theorem computeSHA256_hex_digest :
  (forall input : string,
      exists hashHex,
        computeSHA256 input = Ok hashHex /\
        hashHex
        = join "" (map hex_byte (SHA256.digest (list_byte_of_string input))) /\
        String.length hashHex = 64%nat /\
        lower_hex hashHex) /\
  computeSHA256 "abc"
  = Ok "ba7816bf8f01cfea414140de5dae2223b00361a396177a9cb410ff61f20015ad" /\
  computeSHA256 ""
  = Ok "e3b0c44298fc1c149afbf4c8996fb92427ae41e4649b934ca495991b7852b855" /\
  computeSHA256 "abcdbcdecdefdefgefghfghighijhijkijkljklmklmnlmnomnopnopq"
  = Ok "248d6a61d20638b8e5c026930c3e6039a33ce45964ff2167f6ecedd419db06c1" /\
  computeSHA256
    ("abcdefghbcdefghicdefghijdefghijkefghijklfghijklmghijklmn"
     ++ "hijklmnoijklmnopjklmnopqklmnopqrlmnopqrsmnopqrstnopqrstu")
  = Ok "cf5b16a778af8380036ce59e7b0492370b249b11e8f07a51afac45037afee9d1" /\
  computeSHA256 (string_of_list_byte [xc3; xa9])
  = Ok "4a99557e4033c3539de2eb65472017cad5f9557f7a0625a09f1c3f6e2ba69c4c".
Proof.
  split; [exact computeSHA256_fulfils |].
  repeat split; vm_compute; reflexivity.
Qed.

(** The model of the host primitive on two more vectors of FIPS 180-4: the
    empty message and the two-block message. *)
Example digest_empty_message :
  computeSHA256 ""
  = Ok "e3b0c44298fc1c149afbf4c8996fb92427ae41e4649b934ca495991b7852b855".
Proof. vm_compute. reflexivity. Qed.

Example digest_two_blocks :
  computeSHA256 "abcdbcdecdefdefgefghfghighijhijkijkljklmklmnlmnomnopnopq"
  = Ok "248d6a61d20638b8e5c026930c3e6039a33ce45964ff2167f6ecedd419db06c1".
Proof. vm_compute. reflexivity. Qed.

(** ** The signal providers *)

(** A set keeps the first occurrence of each name, in insertion order. *)
Example distinct_first_occurrence :
  distinct ["b"; "a"; "b"; "c"; "a"] = ["b"; "a"; "c"] /\
  getPlugins desktop = "PDF Viewer".
Proof. split; reflexivity. Qed.

Example hex_byte_pads :
  hex_byte 10 = "0a" /\ hex_byte 171 = "ab" /\ hex_byte 0 = "00".
Proof. repeat split; vm_compute; reflexivity. Qed.

(** C5.  The processor-count provider returns the decimal rendering of the
    count whenever the host exposes one, zero included, so it never returns
    the sentinel; where the count is absent the method call on [undefined]
    throws. *)
Theorem getHardwareConcurrencyStatus_no_sentinel :
  (forall h : Host,
      getHardwareConcurrencyStatus h
      = match hardwareConcurrency h with
        | Some n => Ok (Number_toString n)
        | None => Throw TypeError
        end) /\
  (forall h : Host, getHardwareConcurrencyStatus h <> Ok "N/A") /\
  getHardwareConcurrencyStatus (set_hardwareConcurrency (Some 8) degraded) = Ok "8" /\
  getHardwareConcurrencyStatus (set_hardwareConcurrency (Some 0) degraded) = Ok "0" /\
  getHardwareConcurrencyStatus (set_hardwareConcurrency None degraded) = Throw TypeError.
Proof.
  split; [| split; [| repeat split]].
  - intros h. unfold getHardwareConcurrencyStatus.
    destruct (hardwareConcurrency h) as [n |]; [| reflexivity].
    now rewrite Number_toString_or_else.
  - intros h. unfold getHardwareConcurrencyStatus.
    destruct (hardwareConcurrency h) as [n |]; [| discriminate].
    rewrite Number_toString_or_else. intros [= Heq].
    exact (Number_toString_not_sentinel n Heq).
Qed.

(** C10.  When the font enumeration succeeds with no font face, [getFonts]
    fulfils with "N/A"; when the plugin list is empty, [getPlugins] returns
    the empty string. *)
Theorem empty_fonts_sentinel_empty_plugins_blank (h : Host) :
  (fonts h = Some (FontsReady []) -> getFonts h = Ok "N/A") /\
  (plugins h = [] -> getPlugins h = "").
Proof.
  split.
  - intros Hf. unfold getFonts. now rewrite Hf.
  - intros Hp. unfold getPlugins. now rewrite Hp.
Qed.

Lemma empty_fonts_sentinel_empty_plugins_blank_witness :
  getFonts (set_fonts (Some (FontsReady [])) degraded) = Ok "N/A" /\
  getPlugins (set_fonts (Some (FontsReady [])) degraded) = "".
Proof.
  split.
  - apply (proj1 (empty_fonts_sentinel_empty_plugins_blank
                    (set_fonts (Some (FontsReady [])) degraded))).
    reflexivity.
  - apply (proj2 (empty_fonts_sentinel_empty_plugins_blank
                    (set_fonts (Some (FontsReady [])) degraded))).
    reflexivity.
Defined.

(** The canvas provider has three ends and none is the sentinel. *)
Lemma getCanvasFingerprint_cases (h : Host) :
  getCanvasFingerprint h
  = match context2d h with
    | None => Throw TypeError
    | Some (BlobBytes buffer) => Ok (computeHashBuffer buffer)
    | Some BlobNull => Stall
    end.
Proof. reflexivity. Qed.

(** C3.  Where the 2-D context is unavailable, [getCanvasFingerprint]
    rejects with a [TypeError]; it does not fulfil with "N/A". *)
Theorem getCanvasFingerprint_no_context (h : Host) :
  context2d h = None ->
  getCanvasFingerprint h = Throw TypeError /\
  getCanvasFingerprint h <> Ok "N/A".
Proof.
  intros Hc. unfold getCanvasFingerprint. rewrite Hc.
  split; [reflexivity | discriminate].
Qed.

Lemma getCanvasFingerprint_no_context_witness :
  context2d degraded = None /\
  getCanvasFingerprint degraded = Throw TypeError /\
  getCanvasFingerprint degraded <> Ok "N/A".
Proof.
  split; [reflexivity |].
  apply (getCanvasFingerprint_no_context degraded). reflexivity.
Defined.

(** ** The canonical string *)

Lemma template_join (v0 v1 v2 v3 v4 v5 v6 v7 v8 v9 v10 v11 v12 v13 : value) :
  template v0 v1 v2 v3 v4 v5 v6 v7 v8 v9 v10 v11 v12 v13
  = join "-" (map ToString [v0; v1; v2; v3; v4; v5; v6; v7; v8; v9; v10; v11; v12; v13]).
Proof. reflexivity. Qed.

(** The canonical string in terms of the providers: the values sit in the
    order of the source, whatever the providers' ends. *)
Lemma canonical_join (h : Host) :
  canonical h
  = (hardwareConcurrency <- getHardwareConcurrencyStatus h ;;
     fonts <- getFonts h ;;
     canvas <- getCanvasFingerprint h ;;
     webgl <- getWebGLFingerprint h ;;
     Ok (join "-"
           [getUserAgent h; getScreenResolution h; getTimeZone h;
            getLanguage h; getPlatform h; getDoNotTrackStatus h;
            hardwareConcurrency; getCookiesStatus h; getTouchSupport h;
            getPlugins h; fonts; canvas; webgl; "[object Promise]"])).
Proof. reflexivity. Qed.

(** ** The orchestrator *)

(** The bytes captured by the audio analyser do not reach the canonical
    string. *)
Lemma canonical_same_environment (h1 h2 : Host) :
  same_environment h1 h2 -> canonical h1 = canonical h2.
Proof.
  intros (Hua & Hw & Hh & Htz & Hl & Hp & Hdnt & Hhc & Hck & Hpl & Hts & Hmt
          & Hf & Hc & Hgl).
  rewrite !canonical_join.
  unfold getHardwareConcurrencyStatus, getFonts, getCanvasFingerprint,
    getWebGLFingerprint, getUserAgent, getScreenResolution, getTimeZone,
    getLanguage, getPlatform, getDoNotTrackStatus, getCookiesStatus,
    getTouchSupport, getPlugins.
  now rewrite Hua, Hw, Hh, Htz, Hl, Hp, Hdnt, Hhc, Hck, Hpl, Hts, Hmt, Hf, Hc, Hgl.
Qed.

Lemma same_environment_refl (h : Host) : same_environment h h.
Proof. repeat split; reflexivity. Qed.

(** Whenever the canonical string is built, it ends with the rendering of
    the promise object, not with what the promise holds. *)
Lemma canonical_ends_with_promise (h : Host) (raw : string) :
  canonical h = Ok raw ->
  exists front, raw = front ++ "-[object Promise]".
Proof.
  rewrite canonical_join.
  destruct (getHardwareConcurrencyStatus h) as [hc | |]; try discriminate.
  destruct (getFonts h) as [f | |]; try discriminate.
  destruct (getCanvasFingerprint h) as [c | |]; try discriminate.
  destruct (getWebGLFingerprint h) as [w | |]; try discriminate.
  cbn [bind]. intros [= <-].
  exists (join "-"
            [getUserAgent h; getScreenResolution h; getTimeZone h;
             getLanguage h; getPlatform h; getDoNotTrackStatus h; hc;
             getCookiesStatus h; getTouchSupport h; getPlugins h; f; c; w]).
  exact (join_snoc "-" (getUserAgent h) "[object Promise]"
           [getScreenResolution h; getTimeZone h; getLanguage h;
            getPlatform h; getDoNotTrackStatus h; hc; getCookiesStatus h;
            getTouchSupport h; getPlugins h; f; c; w]).
Qed.

(** C1.  The audio provider is called without being awaited: on the
    desktop host its promise holds "0,7", and the canonical string ends
    with "[object Promise]"; on a host without audio its promise holds
    "N/A" and the canonical string, when one is built, ends the same way. *)
Theorem audio_slot_holds_promise_object :
  getAudioFingerprint desktop = Ok "0,7" /\
  canonical desktop
  = Ok ("Mozilla/5.0-1920x1080-Europe/Paris-en-US-Linux x86_64-N/A-8-"
        ++ "Cookies Enabled-Touch Not Supported-PDF Viewer-Arial-"
        ++ "-8611c8d3-MesaN/A-[object Promise]") /\
  getAudioFingerprint (set_audio None desktop) = Ok "N/A" /\
  canonical (set_audio None desktop) = canonical desktop /\
  (forall h : Host,
      match canonical h with
      | Ok raw => exists front, raw = front ++ "-[object Promise]"
      | _ => True
      end).
Proof.
  split; [vm_compute; reflexivity |].
  split; [vm_compute; reflexivity |].
  split; [reflexivity |].
  split; [vm_compute; reflexivity |].
  intros h. destruct (canonical h) as [raw | |] eqn:Hraw; trivial.
  exact (canonical_ends_with_promise h raw Hraw).
Qed.

(** A failure of the canvas provider is the end of the pipeline. *)
Lemma canvas_failure_is_fatal (h : Host) :
  (forall buffer, context2d h <> Some (BlobBytes buffer)) ->
  forall uniqueId, getBrowserFingerprint h <> Ok uniqueId.
Proof.
  intros Hfail uniqueId. unfold getBrowserFingerprint.
  rewrite canonical_join, getCanvasFingerprint_cases.
  destruct (getHardwareConcurrencyStatus h); try discriminate.
  destruct (getFonts h); try discriminate.
  destruct (context2d h) as [[buffer |] |]; try discriminate.
  now elim (Hfail buffer).
Qed.

(** What does hold: with a processor count, a font subsystem that settles
    and an encoded canvas image, the pipeline fulfils with 64 lowercase
    hexadecimal characters, whatever the other providers do. *)
Lemma getBrowserFingerprint_fulfils (h : Host) (n : Z) (buffer : list byte) :
  hardwareConcurrency h = Some n ->
  fonts h <> Some FontsNeverReady ->
  context2d h = Some (BlobBytes buffer) ->
  exists uniqueId,
    getBrowserFingerprint h = Ok uniqueId /\
    String.length uniqueId = 64%nat /\
    lower_hex uniqueId.
Proof.
  intros Hn Hf Hc.
  assert (Hraw : exists raw, canonical h = Ok raw).
  { rewrite canonical_join.
    unfold getHardwareConcurrencyStatus, getFonts, getCanvasFingerprint,
      getWebGLFingerprint.
    rewrite Hn, Hc.
    destruct (fonts h) as [[values | e |] |]; try (now elim Hf);
      destruct (webgl h) as [[debugInfo |] |]; cbn [bind]; eauto. }
  destruct Hraw as [raw Hraw].
  unfold getBrowserFingerprint. rewrite Hraw. cbn [bind].
  destruct (computeSHA256_fulfils raw)
    as (hashHex & Hrun & _ & Hlen & Hhex).
  exists hashHex. rewrite Hrun. cbn [bind]. auto.
Qed.

(** C2.  On the host in which every asynchronous provider fails, the font,
    WebGL and audio providers fulfil with the sentinel, the canvas provider
    rejects, and the pipeline rejects with it instead of returning a
    fingerprint; with a canvas that encodes to [null] the pipeline never
    settles. *)
Theorem getBrowserFingerprint_aborts_on_canvas_failure :
  getFonts degraded = Ok "N/A" /\
  getWebGLFingerprint degraded = Ok "N/A" /\
  getAudioFingerprint degraded = Ok "N/A" /\
  getCanvasFingerprint degraded = Throw TypeError /\
  getBrowserFingerprint degraded = Throw TypeError /\
  getBrowserFingerprint (set_context2d (Some BlobNull) degraded) = Stall.
Proof.
  repeat split.
Qed.

(** * Further properties of the providers *)

(** ** Deduplication *)

Lemma existsb_eqb_In (x : string) (seen : list string) :
  existsb (String.eqb x) seen = true <-> In x seen.
Proof.
  rewrite existsb_exists. split.
  - intros [y [Hy Heq]]. apply String.eqb_eq in Heq. now subst.
  - intros Hin. exists x. split; [exact Hin | apply String.eqb_refl].
Qed.

Lemma distinct_from_In (x : string) (xs : list string) :
  forall seen,
    In x (distinct_from seen xs) <-> In x xs /\ ~ In x seen.
Proof.
  induction xs as [| y ys IH]; intros seen; simpl.
  - tauto.
  - destruct (existsb (String.eqb y) seen) eqn:Hy.
    + apply existsb_eqb_In in Hy. rewrite IH.
      split; [tauto |]. intros [[-> | Hin] Hns]; tauto.
    + assert (Hny : ~ In y seen).
      { intros Hin. apply existsb_eqb_In in Hin. congruence. }
      simpl. rewrite IH. simpl.
      destruct (String.eqb_spec y x) as [-> | Hne]; [tauto |].
      split.
      * intros [Heq | [Hin Hns]]; [contradiction | tauto].
      * intros [[Heq | Hin] Hns]; [contradiction |].
        right. split; [exact Hin |]. intros [Heq | Hs]; tauto.
Qed.

Lemma distinct_from_NoDup (xs : list string) :
  forall seen, NoDup (distinct_from seen xs).
Proof.
  induction xs as [| y ys IH]; intros seen; simpl.
  - constructor.
  - destruct (existsb (String.eqb y) seen); [apply IH |].
    constructor; [| apply IH].
    rewrite distinct_from_In. simpl. tauto.
Qed.

(** Elements that were seen, or that occur earlier, add nothing. *)
Lemma distinct_from_app_known (xs ys : list string) :
  forall seen,
    (forall y, In y ys -> In y xs \/ In y seen) ->
    distinct_from seen (xs ++ ys)%list = distinct_from seen xs.
Proof.
  induction xs as [| x xs IH]; intros seen Hknown.
  - simpl. induction ys as [| y ys IHys]; [reflexivity |].
    simpl. assert (Hy : In y seen).
    { destruct (Hknown y (or_introl eq_refl)) as [[] | Hs]. exact Hs. }
    apply existsb_eqb_In in Hy. rewrite Hy.
    apply IHys. intros z Hz. apply Hknown. now right.
  - simpl. destruct (existsb (String.eqb x) seen) eqn:Hx.
    + apply IH. intros y Hy.
      destruct (Hknown y Hy) as [[<- | Hin] | Hs]; auto.
      right. now apply existsb_eqb_In.
    + f_equal. apply IH. intros y Hy.
      destruct (Hknown y Hy) as [[<- | Hin] | Hs]; simpl; auto.
Qed.

(** Every plugin name is listed once: the names joined by [getPlugins] are
    pairwise different and are exactly the names the host lists. *)
Theorem getPlugins_names_once (h : Host) :
  exists names,
    getPlugins h = join ";" names /\
    NoDup names /\
    (forall n, In n names <-> In n (map name (plugins h))).
Proof.
  exists (distinct (map name (plugins h))).
  split; [reflexivity |]. split.
  - apply distinct_from_NoDup.
  - intros n. unfold distinct. rewrite distinct_from_In. simpl. tauto.
Qed.

(** Plugins listed again after the others, under a name that already
    occurs, do not change the signal. *)
Theorem getPlugins_ignores_repeats (h : Host) (again : list Plugin) :
  (forall p, In p again -> In (name p) (map name (plugins h))) ->
  getPlugins (set_plugins (plugins h ++ again)%list h) = getPlugins h.
Proof.
  intros Hknown. unfold getPlugins, distinct. cbn [plugins set_plugins].
  rewrite map_app. rewrite distinct_from_app_known; [reflexivity |].
  intros y Hy. left. apply in_map_iff in Hy as [p [<- Hp]].
  now apply Hknown.
Qed.

Lemma getPlugins_ignores_repeats_witness :
  getPlugins (set_plugins (plugins desktop ++ [ {| name := "PDF Viewer" |} ])%list
                desktop)
  = getPlugins desktop.
Proof.
  apply (getPlugins_ignores_repeats desktop [ {| name := "PDF Viewer" |} ]).
  intros p [<- | []]. simpl. now left.
Defined.

(** ** The tracking preference *)

Lemma or_else_nonempty (s d : string) : d <> "" -> or_else s d <> "".
Proof.
  intros Hd. destruct s; simpl; [exact Hd | discriminate].
Qed.

Lemma nullable_or_else_nonempty (v : option string) (d : string) :
  d <> "" -> nullable_or_else v d <> "".
Proof.
  intros Hd. destruct v; simpl; [now apply or_else_nonempty | exact Hd].
Qed.

(** [getDoNotTrackStatus] never returns the empty string; it returns the
    sentinel exactly when the preference is [null], empty, or the text
    "N/A" itself, and the preference unchanged otherwise. *)
Theorem getDoNotTrackStatus_sentinel (h : Host) :
  getDoNotTrackStatus h <> "" /\
  (getDoNotTrackStatus h = "N/A" <->
   doNotTrack h = None \/ doNotTrack h = Some "" \/ doNotTrack h = Some "N/A") /\
  (getDoNotTrackStatus h <> "N/A" -> doNotTrack h = Some (getDoNotTrackStatus h)).
Proof.
  unfold getDoNotTrackStatus.
  destruct (doNotTrack h) as [[| c s] |]; simpl.
  - split; [discriminate |]. split; [| congruence]. split; auto.
  - split; [discriminate |]. split; [| reflexivity].
    split; [intros ->; auto |].
    intros [H | [H | H]]; congruence.
  - split; [discriminate |]. split; [| congruence]. split; auto.
Qed.

(** ** The font provider *)

(** [getFonts] never rejects and never fulfils with the empty string; it
    fails to settle exactly when the font subsystem never becomes ready. *)
Theorem getFonts_never_rejects (h : Host) :
  (forall e, getFonts h <> Throw e) /\
  getFonts h <> Ok "" /\
  (getFonts h = Stall <-> fonts h = Some FontsNeverReady).
Proof.
  unfold getFonts.
  destruct (fonts h) as [[values | e' |] |].
  - split; [discriminate |]. split; [| split; discriminate].
    intros [= Heq]. revert Heq. apply or_else_nonempty. discriminate.
  - split; [discriminate |]. split; [discriminate | split; discriminate].
  - split; [discriminate |]. split; [discriminate | split; reflexivity].
  - split; [discriminate |]. split; [discriminate | split; discriminate].
Qed.

(** ** Rendering of numbers *)

Lemma to_int_not_nil (z : Z) :
  Z.to_int z <> Decimal.Pos Decimal.Nil /\ Z.to_int z <> Decimal.Neg Decimal.Nil.
Proof.
  destruct z as [| p | p]; simpl; split; try discriminate;
    intros [= Hp]; exact (DecimalPos.Unsigned.to_uint_nonnil p Hp).
Qed.

Lemma to_hex_int_not_nil (z : Z) :
  Z.to_hex_int z <> Hexadecimal.Pos Hexadecimal.Nil /\
  Z.to_hex_int z <> Hexadecimal.Neg Hexadecimal.Nil.
Proof.
  destruct z as [| p | p]; simpl; split; try discriminate;
    intros [= Hp]; exact (HexadecimalPos.Unsigned.to_uint_nonnil p Hp).
Qed.

(** Different numbers have different decimal renderings. *)
Lemma Number_toString_injective (a b : Z) :
  Number_toString a = Number_toString b -> a = b.
Proof.
  unfold Number_toString. intros Heq.
  apply DecimalZ.to_int_inj.
  destruct (to_int_not_nil a) as [Ha1 Ha2], (to_int_not_nil b) as [Hb1 Hb2].
  pose proof (DecimalString.NilZero.isi _ Ha1 Ha2) as Pa.
  pose proof (DecimalString.NilZero.isi _ Hb1 Hb2) as Pb.
  rewrite Heq in Pa. congruence.
Qed.

(** Different numbers have different hexadecimal renderings. *)
Lemma Number_toString16_injective (a b : Z) :
  Number_toString16 a = Number_toString16 b -> a = b.
Proof.
  unfold Number_toString16. intros Heq.
  apply HexadecimalZ.to_int_inj.
  destruct (to_hex_int_not_nil a) as [Ha1 Ha2], (to_hex_int_not_nil b) as [Hb1 Hb2].
  pose proof (HexadecimalString.NilZero.isi _ Ha1 Ha2) as Pa.
  pose proof (HexadecimalString.NilZero.isi _ Hb1 Hb2) as Pb.
  rewrite Heq in Pa. congruence.
Qed.

Lemma string_of_uint_decimal (u : Decimal.uint) :
  forallb is_decimal_char
    (list_ascii_of_string (DecimalString.NilEmpty.string_of_uint u)) = true.
Proof.
  induction u; simpl; auto.
Qed.

(** A decimal rendering is made of digits and the sign only. *)
Lemma Number_toString_decimal (n : Z) :
  forallb is_decimal_char (list_ascii_of_string (Number_toString n)) = true.
Proof.
  unfold Number_toString, DecimalString.NilZero.string_of_int,
    DecimalString.NilZero.string_of_uint.
  destruct (Z.to_int n) as [u | u].
  - destruct u; try reflexivity; apply string_of_uint_decimal.
  - cbn [list_ascii_of_string forallb]. rewrite andb_true_iff. split; [reflexivity |].
    destruct u; try reflexivity; apply string_of_uint_decimal.
Qed.

Lemma Number_toString16_not_sentinel (n : Z) :
  Number_toString16 n <> "N/A" /\ Number_toString16 n <> "".
Proof.
  unfold Number_toString16, HexadecimalString.NilZero.string_of_int.
  destruct (Z.to_hex_int n) as [u | u]; [destruct u |]; split; discriminate.
Qed.

(** A string made of characters that satisfy [P] does not contain a
    character that does not. *)
Lemma no_separator_inside (P : ascii -> bool) (c : ascii) (s front back : string) :
  P c = false ->
  forallb P (list_ascii_of_string s) = true ->
  s <> front ++ String c back.
Proof.
  intros Hc. revert s. induction front as [| a front IH]; intros s Hs Heq.
  - subst s. simpl in Hs. rewrite Hc in Hs. discriminate.
  - subst s. simpl in Hs. apply andb_true_iff in Hs as [_ Hs].
    exact (IH _ Hs eq_refl).
Qed.

(** Two strings cut at their first separator are equal only if the parts
    before and the parts after are. *)
Lemma split_at_separator (P : ascii -> bool) (c : ascii) :
  P c = false ->
  forall s1 s2 r1 r2,
    forallb P (list_ascii_of_string s1) = true ->
    forallb P (list_ascii_of_string s2) = true ->
    s1 ++ String c r1 = s2 ++ String c r2 ->
    s1 = s2 /\ r1 = r2.
Proof.
  intros Hc. induction s1 as [| a s1 IH]; intros [| b s2] r1 r2 H1 H2 Heq;
    simpl in *.
  - injection Heq as <-. auto.
  - injection Heq as <- _. apply andb_true_iff in H2 as [Hb _]. congruence.
  - injection Heq as -> _. apply andb_true_iff in H1 as [Ha _]. congruence.
  - injection Heq as <- Heq.
    apply andb_true_iff in H1 as [_ H1]. apply andb_true_iff in H2 as [_ H2].
    destruct (IH s2 r1 r2 H1 H2 Heq) as [-> ->]. auto.
Qed.

(** ** The screen geometry *)

(** Two hosts have the same screen signal exactly when they have the same
    width and the same height. *)
Theorem getScreenResolution_injective (h1 h2 : Host) :
  getScreenResolution h1 = getScreenResolution h2 <->
  screen_width h1 = screen_width h2 /\ screen_height h1 = screen_height h2.
Proof.
  unfold getScreenResolution. split.
  - intros Heq.
    apply (split_at_separator is_decimal_char "x" eq_refl) in Heq
      as [Hw Hh]; try apply Number_toString_decimal.
    split; now apply Number_toString_injective.
  - intros [-> ->]. reflexivity.
Qed.

(** ** More on the buffer hash *)

(** On buffers of up to 2^21 bytes, where the loop ends on a number of
    magnitude below 2^53, two buffers get the same token exactly when the
    loop ends on the same number: the rendering adds no collision. *)
Theorem computeHashBuffer_same_token (b1 b2 : list byte) :
  Z.of_nat (List.length b1) <= 2 ^ 21 ->
  Z.of_nat (List.length b2) <= 2 ^ 21 ->
  Z.abs (accumulator b1) < 2 ^ 53 /\
  Z.abs (accumulator b2) < 2 ^ 53 /\
  (computeHashBuffer b1 = computeHashBuffer b2 <->
   accumulator b1 = accumulator b2).
Proof.
  intros H1 H2.
  split; [now apply accumulator_bound |].
  split; [now apply accumulator_bound |].
  unfold computeHashBuffer. split.
  - apply Number_toString16_injective.
  - now intros ->.
Qed.

Lemma computeHashBuffer_same_token_witness :
  Z.abs (accumulator [x41]) < 2 ^ 53 /\
  Z.abs (accumulator [x00; x41]) < 2 ^ 53 /\
  (computeHashBuffer [x41] = computeHashBuffer [x00; x41] <->
   accumulator [x41] = accumulator [x00; x41]).
Proof.
  apply (computeHashBuffer_same_token [x41] [x00; x41]);
    vm_compute; discriminate.
Defined.

Lemma hash_step_zero : hash_step 0 x00 = 0.
Proof. reflexivity. Qed.

(** Zero bytes in front of a buffer do not change its token. *)
Theorem computeHashBuffer_leading_zeros (n : nat) (buffer : list byte) :
  computeHashBuffer (repeat x00 n ++ buffer)%list = computeHashBuffer buffer.
Proof.
  unfold computeHashBuffer, accumulator. f_equal.
  rewrite fold_left_app. f_equal.
  induction n as [| n IH]; [reflexivity |].
  cbn [repeat fold_left]. now rewrite hash_step_zero.
Qed.

(** While the accumulator is small, one turn of the loop is the exact
    multiplication by 31. *)
Lemma hash_step_small (hash : Z) (b : byte) :
  0 <= hash < 2 ^ 26 -> hash_step hash b = hash * 31 + getUint8 b.
Proof.
  intros Hh. rewrite hash_step_exact by lia. rewrite shl_5.
  rewrite (ToInt32_id hash) by (unfold int32; lia).
  rewrite ToInt32_id by (unfold int32; lia). lia.
Qed.

Lemma fold_hash_step_small (buffer : list byte) :
  forall hash,
    0 <= hash ->
    (hash + 9) * 31 ^ Z.of_nat (List.length buffer) <= 31 * 2 ^ 26 ->
    fold_left hash_step buffer hash
    = fold_left (fun acc b => acc * 31 + getUint8 b) buffer hash /\
    0 <= fold_left hash_step buffer hash < 2 ^ 31.
Proof.
  induction buffer as [| b rest IH]; intros hash Hpos Hpot.
  - simpl in *. split; [reflexivity | lia].
  - cbn [fold_left].
    cbn [List.length] in Hpot.
    rewrite Nat2Z.inj_succ, Z.pow_succ_r in Hpot by lia.
    pose proof (getUint8_range b) as Hb.
    assert (Hp : 0 < 31 ^ Z.of_nat (List.length rest))
      by (apply Z.pow_pos_nonneg; lia).
    assert (Hsmall : 0 <= hash < 2 ^ 26) by nia.
    rewrite hash_step_small by exact Hsmall.
    apply IH; nia.
Qed.

(** On buffers of at most five bytes the loop never leaves the 32-bit
    range: the accumulator is the exact base-31 polynomial of the bytes and
    is not negative.  Five is the last such length: six bytes 255 end on a
    negative number. *)
Theorem computeHashBuffer_short_exact :
  (forall buffer : list byte,
      (List.length buffer <= 5)%nat ->
      accumulator buffer = horner31 buffer /\
      0 <= accumulator buffer < 2 ^ 31) /\
  accumulator (repeat xff 6) = -1046153312 /\
  horner31 (repeat xff 6) = 7543781280.
Proof.
  split; [| split; vm_compute; reflexivity].
  intros buffer Hlen. unfold accumulator, horner31.
  apply fold_hash_step_small; [lia |].
  assert (Hm : 31 ^ Z.of_nat (List.length buffer) <= 31 ^ 5)
    by (apply Z.pow_le_mono_r; lia).
  change (31 ^ 5) with 28629151 in Hm. change (2 ^ 26) with 67108864. lia.
Qed.

(** ** The canvas and audio providers *)

(** The canvas provider never fulfils with the sentinel nor with the empty
    string, on any host. *)
Theorem getCanvasFingerprint_never_sentinel (h : Host) :
  getCanvasFingerprint h <> Ok "N/A" /\ getCanvasFingerprint h <> Ok "".
Proof.
  unfold getCanvasFingerprint, computeHashBuffer.
  destruct (context2d h) as [[buffer |] |]; try (split; discriminate).
  destruct (Number_toString16_not_sentinel (accumulator buffer)) as [H1 H2].
  split; intros [= Heq]; auto.
Qed.

Lemma computeHashBuffer_short_exact_witness :
  accumulator [x41; x42; x43] = horner31 [x41; x42; x43] /\
  0 <= accumulator [x41; x42; x43] < 2 ^ 31.
Proof.
  apply (proj1 computeHashBuffer_short_exact [x41; x42; x43]).
  simpl. lia.
Defined.

Lemma getUint8_injective (a b : byte) : getUint8 a = getUint8 b -> a = b.
Proof.
  unfold getUint8. intros Heq. apply N2Z.inj in Heq.
  pose proof (Byte.of_to_N a) as Ha. pose proof (Byte.of_to_N b) as Hb.
  rewrite Heq in Ha. congruence.
Qed.

Lemma Number_toString_head (n : Z) :
  exists c rest,
    Number_toString n = String c rest /\ is_decimal_char c = true.
Proof.
  pose proof (Number_toString_decimal n) as Hd.
  pose proof (Number_toString_or_else n "N/A") as Hne.
  destruct (Number_toString n) as [| c rest].
  - simpl in Hne. discriminate.
  - simpl in Hd. apply andb_true_iff in Hd as [Hc _]. eauto.
Qed.

(** The rendering of the captured bytes: empty for an empty array, and
    otherwise a string that starts with a digit. *)
Lemma audio_rendering_head (bs : list byte) :
  let s := join "," (map (fun b => Number_toString (getUint8 b)) bs) in
  s = "" \/ exists c rest, s = String c rest /\ is_decimal_char c = true.
Proof.
  destruct bs as [| b [| b' bs]]; cbn [map join].
  - now left.
  - right. apply Number_toString_head.
  - right. destruct (Number_toString_head (getUint8 b)) as (c & rest & -> & Hc).
    simpl. eauto.
Qed.

(** The audio provider always fulfils, and it fulfils with the sentinel
    exactly when the audio graph throws: no captured array renders as
    "N/A". *)
Theorem getAudioFingerprint_sentinel (h : Host) :
  (exists s, getAudioFingerprint h = Ok s) /\
  (getAudioFingerprint h = Ok "N/A" <-> audio h = None).
Proof.
  unfold getAudioFingerprint.
  destruct (audio h) as [bs |].
  - split; [eauto |]. split; [| discriminate].
    intros [= Heq].
    destruct (audio_rendering_head bs) as [He | (c & rest & He & Hc)];
      cbv zeta in He; rewrite He in Heq; [discriminate |].
    injection Heq as -> _. discriminate.
  - split; [eauto |]. split; reflexivity.
Qed.

Lemma audio_rendering_injective (bs1 : list byte) :
  forall bs2,
    join "," (map (fun b => Number_toString (getUint8 b)) bs1)
    = join "," (map (fun b => Number_toString (getUint8 b)) bs2) ->
    bs1 = bs2.
Proof.
  induction bs1 as [| a [| a' bs1] IH]; intros [| b [| b' bs2]] Heq;
    cbn [map join] in Heq.
  - reflexivity.
  - destruct (Number_toString_head (getUint8 b)) as (c & r & Hb & _).
    rewrite Hb in Heq. discriminate.
  - destruct (Number_toString_head (getUint8 b)) as (c & r & Hb & _).
    rewrite Hb in Heq. discriminate.
  - destruct (Number_toString_head (getUint8 a)) as (c & r & Ha & _).
    rewrite Ha in Heq. discriminate.
  - f_equal. apply getUint8_injective. now apply Number_toString_injective.
  - exfalso.
    exact (no_separator_inside is_decimal_char "," _ _ _ eq_refl
             (Number_toString_decimal (getUint8 a)) Heq).
  - destruct (Number_toString_head (getUint8 a)) as (c & r & Ha & _).
    rewrite Ha in Heq. discriminate.
  - exfalso. symmetry in Heq.
    exact (no_separator_inside is_decimal_char "," _ _ _ eq_refl
             (Number_toString_decimal (getUint8 b)) Heq).
  - apply (split_at_separator is_decimal_char "," eq_refl) in Heq
      as [Hhead Htail]; try apply Number_toString_decimal.
    apply Number_toString_injective, getUint8_injective in Hhead. subst b.
    f_equal. apply IH. exact Htail.
Qed.

(** The string of the audio provider determines the captured bytes: two
    captures that render alike are the same array. *)
Theorem getAudioFingerprint_injective (h1 h2 : Host) (bs1 bs2 : list byte) :
  audio h1 = Some bs1 ->
  audio h2 = Some bs2 ->
  getAudioFingerprint h1 = getAudioFingerprint h2 ->
  bs1 = bs2.
Proof.
  unfold getAudioFingerprint. intros -> -> [= Heq].
  now apply audio_rendering_injective.
Qed.

Lemma getAudioFingerprint_injective_witness :
  audio desktop = Some [x00; x07] /\
  audio (set_language "fr" desktop) = Some [x00; x07] /\
  [x00; x07] = [x00; x07].
Proof.
  split; [reflexivity |]. split; [reflexivity |].
  apply (getAudioFingerprint_injective desktop (set_language "fr" desktop)
           [x00; x07] [x00; x07]);
    reflexivity.
Defined.

(** ** The WebGL provider *)

(** The WebGL provider never fulfils with the empty string; when the
    debug extension is there but both parameters are [null], each falls
    back on its own and the signal is "N/AN/A", not the sentinel. *)
Theorem getWebGLFingerprint_sentinels (h : Host) :
  getWebGLFingerprint h <> Ok "" /\
  (forall debugInfo,
      webgl h = Some (Some debugInfo) ->
      UNMASKED_RENDERER_WEBGL debugInfo = None ->
      UNMASKED_VENDOR_WEBGL debugInfo = None ->
      getWebGLFingerprint h = Ok "N/AN/A").
Proof.
  unfold getWebGLFingerprint. split.
  - destruct (webgl h) as [[debugInfo |] |]; try discriminate.
    pose proof (nullable_or_else_nonempty (UNMASKED_RENDERER_WEBGL debugInfo) "N/A")
      as Hr.
    destruct (nullable_or_else (UNMASKED_RENDERER_WEBGL debugInfo) "N/A").
    + now elim Hr.
    + discriminate.
  - intros debugInfo -> -> ->. reflexivity.
Qed.

Lemma getWebGLFingerprint_sentinels_witness :
  getWebGLFingerprint
    (set_webgl (Some (Some {| UNMASKED_RENDERER_WEBGL := None;
                              UNMASKED_VENDOR_WEBGL := None |})) desktop)
  = Ok "N/AN/A".
Proof.
  apply (proj2 (getWebGLFingerprint_sentinels _)
           {| UNMASKED_RENDERER_WEBGL := None; UNMASKED_VENDOR_WEBGL := None |});
    reflexivity.
Defined.

Lemma or_else_append (r s d : string) : r <> "" -> or_else (r ++ s) d = r ++ s.
Proof.
  destruct r; [congruence | reflexivity].
Qed.

(** Renderer and vendor are concatenated with nothing between them: text
    that moves from the end of the renderer to the start of the vendor
    leaves the signal unchanged. *)
Theorem getWebGLFingerprint_boundary_lost (h1 h2 : Host) (r s v : string) :
  r <> "" ->
  v <> "" ->
  webgl h1 = Some (Some {| UNMASKED_RENDERER_WEBGL := Some (r ++ s);
                           UNMASKED_VENDOR_WEBGL := Some v |}) ->
  webgl h2 = Some (Some {| UNMASKED_RENDERER_WEBGL := Some r;
                           UNMASKED_VENDOR_WEBGL := Some (s ++ v) |}) ->
  getWebGLFingerprint h1 = getWebGLFingerprint h2.
Proof.
  intros Hr Hv H1 H2. unfold getWebGLFingerprint. rewrite H1, H2.
  cbn [UNMASKED_RENDERER_WEBGL UNMASKED_VENDOR_WEBGL nullable_or_else].
  rewrite (or_else_append r s) by exact Hr.
  replace (or_else r "N/A") with r by (destruct r; [congruence | reflexivity]).
  replace (or_else v "N/A") with v by (destruct v; [congruence | reflexivity]).
  replace (or_else (s ++ v) "N/A") with (s ++ v).
  - now rewrite append_associative.
  - destruct s; simpl; [destruct v; [congruence | reflexivity] | reflexivity].
Qed.

Lemma getWebGLFingerprint_boundary_lost_witness :
  getWebGLFingerprint
    (set_webgl (Some (Some {| UNMASKED_RENDERER_WEBGL := Some ("Mesa" ++ " Intel");
                              UNMASKED_VENDOR_WEBGL := Some "Inc" |})) desktop)
  = getWebGLFingerprint
      (set_webgl (Some (Some {| UNMASKED_RENDERER_WEBGL := Some "Mesa";
                                UNMASKED_VENDOR_WEBGL := Some (" Intel" ++ "Inc") |}))
         desktop).
Proof.
  apply (getWebGLFingerprint_boundary_lost _ _ "Mesa" " Intel" "Inc");
    try discriminate; reflexivity.
Defined.

(** ** The rendering of the digest *)

Lemma hex_byte_injective (a b : Z) :
  0 <= a < 256 -> 0 <= b < 256 -> hex_byte a = hex_byte b -> a = b.
Proof.
  intros Ha Hb Heq.
  assert (Hall : forallb
            (fun n => forallb
               (fun m => implb (String.eqb (hex_byte (Z.of_nat n))
                                           (hex_byte (Z.of_nat m)))
                               (Nat.eqb n m))
               (seq 0 256))
            (seq 0 256) = true) by (vm_compute; reflexivity).
  rewrite forallb_forall in Hall.
  specialize (Hall (Z.to_nat a) ltac:(apply in_seq; lia)).
  rewrite forallb_forall in Hall.
  specialize (Hall (Z.to_nat b) ltac:(apply in_seq; lia)).
  rewrite !Z2Nat.id in Hall by lia.
  rewrite Heq, String.eqb_refl in Hall. simpl in Hall.
  apply Nat.eqb_eq in Hall. lia.
Qed.

(** Two concatenations whose first parts have the same length are equal
    only part by part. *)
Lemma append_same_length (a1 : string) :
  forall a2 r1 r2,
    String.length a1 = String.length a2 ->
    a1 ++ r1 = a2 ++ r2 ->
    a1 = a2 /\ r1 = r2.
Proof.
  induction a1 as [| c a1 IH]; intros [| d a2] r1 r2 Hlen Heq;
    simpl in *; try discriminate.
  - auto.
  - injection Heq as -> Heq. injection Hlen as Hlen.
    destruct (IH a2 r1 r2 Hlen Heq) as [-> ->]. auto.
Qed.

Lemma join_hex_bytes_injective (l1 : list Z) :
  forall l2,
    Forall (fun b => 0 <= b < 256) l1 ->
    Forall (fun b => 0 <= b < 256) l2 ->
    join "" (map hex_byte l1) = join "" (map hex_byte l2) ->
    l1 = l2.
Proof.
  induction l1 as [| a l1 IH]; intros [| b l2] H1 H2 Heq.
  - reflexivity.
  - exfalso. apply (f_equal String.length) in Heq.
    destruct (join_hex_bytes _ H2) as [Hlen _]. rewrite Hlen in Heq.
    simpl in Heq. lia.
  - exfalso. apply (f_equal String.length) in Heq.
    destruct (join_hex_bytes _ H1) as [Hlen _]. rewrite Hlen in Heq.
    simpl in Heq. lia.
  - cbn [map] in Heq. rewrite !join_empty_cons in Heq.
    inversion H1 as [| ? ? Ha H1']; subst. inversion H2 as [| ? ? Hb H2']; subst.
    destruct (hex_byte_two_digits a Ha) as [La _].
    destruct (hex_byte_two_digits b Hb) as [Lb _].
    apply append_same_length in Heq as [Hh Ht]; [| congruence].
    f_equal; [now apply hex_byte_injective | now apply IH].
Qed.

(** The hexadecimal rendering keeps the digest apart: two inputs get the
    same string exactly when their digests are the same thirty-two
    bytes. *)
Theorem computeSHA256_same_string (a b : string) :
  computeSHA256 a = computeSHA256 b <->
  SHA256.digest (encode a) = SHA256.digest (encode b).
Proof.
  pose proof (digest_range (encode a)) as Ha.
  pose proof (digest_range (encode b)) as Hb.
  change (computeSHA256 a)
    with (Ok (join "" (map hex_byte (SHA256.digest (encode a))))).
  change (computeSHA256 b)
    with (Ok (join "" (map hex_byte (SHA256.digest (encode b))))).
  revert Ha Hb.
  generalize (SHA256.digest (encode a)) as da.
  generalize (SHA256.digest (encode b)) as db.
  intros db da Ha Hb. split.
  - intros Heq. injection Heq as Heq.
    apply join_hex_bytes_injective; assumption.
  - intros ->. reflexivity.
Qed.

(** ** How the pipeline ends *)

(** The three ends of the pipeline in terms of the host.  It rejects when
    the processor count is absent, or when the fonts settle and there is no
    2-D context; it never settles when the count is there and the fonts
    never become ready or the canvas encodes to [null]; it fulfils in every
    other case.  An absent processor count is met first, and a font
    subsystem that never becomes ready hides a missing 2-D context. *)
Theorem getBrowserFingerprint_ends (h : Host) :
  (getBrowserFingerprint h = Throw TypeError <->
   hardwareConcurrency h = None \/
   (fonts h <> Some FontsNeverReady /\ context2d h = None)) /\
  (getBrowserFingerprint h = Stall <->
   hardwareConcurrency h <> None /\
   (fonts h = Some FontsNeverReady \/
    (fonts h <> Some FontsNeverReady /\ context2d h = Some BlobNull))) /\
  ((exists uniqueId, getBrowserFingerprint h = Ok uniqueId) <->
   hardwareConcurrency h <> None /\
   fonts h <> Some FontsNeverReady /\
   exists buffer, context2d h = Some (BlobBytes buffer)).
Proof.
  unfold getBrowserFingerprint. rewrite canonical_join.
  unfold getHardwareConcurrencyStatus, getFonts, getCanvasFingerprint,
    getWebGLFingerprint.
  destruct (hardwareConcurrency h) as [n |];
    [destruct (fonts h) as [[values | e |] |];
     [destruct (context2d h) as [[buffer |] |];
      [destruct (webgl h) as [[debugInfo |] |] | |] ..
     | | destruct (context2d h) as [[buffer |] |];
         [destruct (webgl h) as [[debugInfo |] |] | |] ] |];
    cbn [bind];
    try match goal with
        | |- context [computeSHA256 ?raw] =>
            destruct (computeSHA256_fulfils raw) as (hashHex & -> & _);
            cbn [bind]
        end;
    (split; [| split]); split;
    try discriminate; try congruence;
    try (intros [u Hu]; discriminate);
    try (intros [H | [H1 H2]]; congruence);
    try (intros [H [H1 | [H1 H2]]]; congruence);
    try (intros (H & H1 & [b Hb]); congruence);
    try (intros _; eauto; fail);
    try (intros _; right; split; congruence);
    try (intros _; split; [congruence | right; split; congruence]);
    try (intros _; split; [congruence | left; reflexivity]);
    try (intros _; split; [congruence | split; [congruence | eauto]]).
Qed.

Lemma getBrowserFingerprint_fulfils_witness :
  exists uniqueId,
    getBrowserFingerprint desktop = Ok uniqueId /\
    String.length uniqueId = 64%nat /\
    lower_hex uniqueId.
Proof.
  apply (getBrowserFingerprint_fulfils desktop 8 png_start).
  - reflexivity.
  - discriminate.
  - reflexivity.
Defined.

(** ** The canonical string and the plain-text signals *)

Lemma append_cancel_tail (a : string) :
  forall b s, a ++ s = b ++ s -> a = b.
Proof.
  induction a as [| c a IH]; intros [| d b] s Heq; simpl in Heq.
  - reflexivity.
  - exfalso. apply (f_equal String.length) in Heq.
    simpl in Heq. rewrite length_append in Heq. lia.
  - exfalso. apply (f_equal String.length) in Heq.
    simpl in Heq. rewrite length_append in Heq. lia.
  - injection Heq as -> Heq. f_equal. exact (IH b s Heq).
Qed.

Lemma append_cancel_head (p a b : string) : p ++ a = p ++ b -> a = b.
Proof.
  induction p as [| c p IH]; simpl; intros Heq; [exact Heq |].
  injection Heq as Heq. auto.
Qed.

(** Hyphens inside a value are not told apart from the separators: moving
    the cut between time zone and language along a hyphen gives another
    environment with the same fingerprint. *)
Theorem getBrowserFingerprint_hyphen_collision (h : Host) (a b c : string) :
  timeZone (set_timeZone a (set_language (b ++ "-" ++ c) h))
  <> timeZone (set_timeZone (a ++ "-" ++ b) (set_language c h)) /\
  getBrowserFingerprint (set_timeZone a (set_language (b ++ "-" ++ c) h))
  = getBrowserFingerprint (set_timeZone (a ++ "-" ++ b) (set_language c h)).
Proof.
  split.
  - cbn [timeZone set_timeZone]. intros Heq.
    apply (f_equal String.length) in Heq.
    rewrite length_append in Heq. simpl in Heq. lia.
  - unfold getBrowserFingerprint. f_equal.
    rewrite !canonical_join.
    unfold getHardwareConcurrencyStatus, getFonts, getCanvasFingerprint,
      getWebGLFingerprint, getUserAgent, getScreenResolution, getTimeZone,
      getLanguage, getPlatform, getDoNotTrackStatus, getCookiesStatus,
      getTouchSupport, getPlugins.
    cbn [userAgent screen_width screen_height timeZone language platform
         doNotTrack hardwareConcurrency cookieEnabled plugins ontouchstart
         maxTouchPoints fonts context2d webgl audio set_timeZone set_language].
    destruct (hardwareConcurrency h) as [n |]; [| reflexivity].
    destruct (fonts h) as [[values | e |] |];
      destruct (context2d h) as [[buffer |] |]; try reflexivity;
      destruct (webgl h) as [[debugInfo |] |];
      cbn [bind join]; do 3 f_equal;
      rewrite !append_associative; reflexivity.
Qed.

(** With every other answer of the host fixed, the canonical string tells
    two languages apart: a change of the language alone always changes
    it. *)
Theorem canonical_tells_languages_apart (h : Host) (a b raw : string) :
  canonical (set_language a h) = Ok raw ->
  canonical (set_language b h) = Ok raw ->
  a = b.
Proof.
  rewrite !canonical_join.
  unfold getHardwareConcurrencyStatus, getFonts, getCanvasFingerprint,
    getWebGLFingerprint, getUserAgent, getScreenResolution, getTimeZone,
    getLanguage, getPlatform, getDoNotTrackStatus, getCookiesStatus,
    getTouchSupport, getPlugins.
  cbn [userAgent screen_width screen_height timeZone language platform
       doNotTrack hardwareConcurrency cookieEnabled plugins ontouchstart
       maxTouchPoints fonts context2d webgl audio set_language].
  destruct (hardwareConcurrency h) as [n |]; [| discriminate].
  destruct (fonts h) as [[values | e |] |];
    destruct (context2d h) as [[buffer |] |]; try discriminate;
    destruct (webgl h) as [[debugInfo |] |];
    cbn [bind join]; intros [= <-] [= Heq];
    repeat first [ apply append_cancel_head in Heq | injection Heq as Heq ];
    (apply append_cancel_tail in Heq; congruence).
Qed.

Lemma canonical_tells_languages_apart_witness :
  "en-US" = "en-US".
Proof.
  apply (canonical_tells_languages_apart desktop "en-US" "en-US"
           ("Mozilla/5.0-1920x1080-Europe/Paris-en-US-Linux x86_64-N/A-8-"
            ++ "Cookies Enabled-Touch Not Supported-PDF Viewer-Arial-"
            ++ "-8611c8d3-MesaN/A-[object Promise]"));
    vm_compute; reflexivity.
Defined.

(** ** The audio slot of the canonical string *)

(** What the audio promise holds is never the text of a promise object. *)
Lemma getAudioFingerprint_not_promise_text (h : Host) (a : string) :
  getAudioFingerprint h = Ok a -> a <> "[object Promise]".
Proof.
  unfold getAudioFingerprint.
  destruct (audio h) as [bs |]; intros [= <-]; [| discriminate].
  destruct (audio_rendering_head bs) as [He | (c & rest & He & Hc)];
    cbv zeta in He; rewrite He; [discriminate |].
  intros [= -> _]. discriminate.
Qed.

(** C7.  Thirteen of the fourteen signal values are joined with "-" in the
    order of the source, with nothing before the first or after the last
    and nothing escaped ("A", "B", "N/A" give "A-B-N/A"), but the
    fourteenth place holds the text "[object Promise]" and not the value of
    the audio signal: whenever a canonical string is built, it is not the
    join of the fourteen signal values. *)
Theorem canonical_string_without_audio_value (h : Host) (hc f c w a : string) :
  getHardwareConcurrencyStatus h = Ok hc ->
  getFonts h = Ok f ->
  getCanvasFingerprint h = Ok c ->
  getWebGLFingerprint h = Ok w ->
  getAudioFingerprint h = Ok a ->
  canonical h
  = Ok (join "-"
          [getUserAgent h; getScreenResolution h; getTimeZone h;
           getLanguage h; getPlatform h; getDoNotTrackStatus h; hc;
           getCookiesStatus h; getTouchSupport h; getPlugins h; f; c; w;
           "[object Promise]"]) /\
  canonical h
  <> Ok (join "-"
           [getUserAgent h; getScreenResolution h; getTimeZone h;
            getLanguage h; getPlatform h; getDoNotTrackStatus h; hc;
            getCookiesStatus h; getTouchSupport h; getPlugins h; f; c; w;
            a]) /\
  join "-" ["A"; "B"; "N/A"] = "A-B-N/A".
Proof.
  intros Hhc Hf Hc Hw Ha.
  assert (Hraw : canonical h
                 = Ok (join "-"
                         [getUserAgent h; getScreenResolution h; getTimeZone h;
                          getLanguage h; getPlatform h; getDoNotTrackStatus h;
                          hc; getCookiesStatus h; getTouchSupport h;
                          getPlugins h; f; c; w; "[object Promise]"])).
  { rewrite canonical_join, Hhc, Hf, Hc, Hw. reflexivity. }
  split; [exact Hraw |]. split; [| reflexivity].
  rewrite Hraw. intros [= Heq].
  pose proof (join_snoc "-" (getUserAgent h) "[object Promise]"
                [getScreenResolution h; getTimeZone h; getLanguage h;
                 getPlatform h; getDoNotTrackStatus h; hc; getCookiesStatus h;
                 getTouchSupport h; getPlugins h; f; c; w]) as Hp.
  pose proof (join_snoc "-" (getUserAgent h) a
                [getScreenResolution h; getTimeZone h; getLanguage h;
                 getPlatform h; getDoNotTrackStatus h; hc; getCookiesStatus h;
                 getTouchSupport h; getPlugins h; f; c; w]) as Hq.
  cbn [app] in Hp, Hq.
  assert (Hcut : "-" ++ "[object Promise]" = "-" ++ a).
  { apply append_cancel_head with (p := join "-"
      [getUserAgent h; getScreenResolution h; getTimeZone h; getLanguage h;
       getPlatform h; getDoNotTrackStatus h; hc; getCookiesStatus h;
       getTouchSupport h; getPlugins h; f; c; w]).
    rewrite <- Hp, <- Hq. exact Heq. }
  injection Hcut as Hcut.
  exact (getAudioFingerprint_not_promise_text h a Ha (eq_sym Hcut)).
Qed.

Lemma canonical_string_without_audio_value_witness :
  canonical desktop
  = Ok (join "-"
          ["Mozilla/5.0"; "1920x1080"; "Europe/Paris"; "en-US";
           "Linux x86_64"; "N/A"; "8"; "Cookies Enabled";
           "Touch Not Supported"; "PDF Viewer"; "Arial"; "-8611c8d3";
           "MesaN/A"; "[object Promise]"]) /\
  canonical desktop
  <> Ok (join "-"
           ["Mozilla/5.0"; "1920x1080"; "Europe/Paris"; "en-US";
            "Linux x86_64"; "N/A"; "8"; "Cookies Enabled";
            "Touch Not Supported"; "PDF Viewer"; "Arial"; "-8611c8d3";
            "MesaN/A"; "0,7"]) /\
  join "-" ["A"; "B"; "N/A"] = "A-B-N/A".
Proof.
  apply (canonical_string_without_audio_value desktop
           "8" "Arial" "-8611c8d3" "MesaN/A" "0,7");
    vm_compute; reflexivity.
Defined.
